(** * Rocketrybox seller dashboard: API client, NDR view model, mock tracking

  A shallow embedding of three pieces of the dashboard:

  - [src/services/api/index.ts]: the axios instance and its request and
    response interceptors ([ApiClient]);
  - the NDR details page: the object literal that reshapes the server
    payload into [NDRDetails] inside [fetchNDRDetails] ([Ndr]);
  - [src/lib/api/tracking.ts]: the canned tracking table, the random
    generator and [fetchTrackingInfo] ([Tracking]).

  JavaScript values that arrive untyped (the parsed JSON body) are kept
  untyped ([Js.value]); ambient effects (browser storage, the random
  source, the clock, the console) are explicit state. *)

From Stdlib Require Import ZArith QArith Qround Floats.PrimFloat.
From stdpp Require Import gmap strings list pretty sorting.

#[local] Open Scope Z_scope.

(** ** JavaScript values and completions *)

Module Js.

(** A value as [JSON.parse] can produce it, plus [undefined], which
    property reads produce. Numbers are binary64. An object is the list
    of its own properties; a read takes the first entry for the key. *)
#[warnings="-register-all"]
Inductive value :=
| VUndefined
| VNull
| VBool (b : bool)
| VNum (n : float)
| VStr (s : string)
| VArr (elems : list value)
| VObj (props : list (string * value)).

(** What can be thrown: [new Error(message)], or the engine's
    [TypeError] (its message text is engine-specific and not modelled). *)
Inductive exn :=
| Error (message : string)
| TypeError.

(** The completion of an expression: a value, or an abrupt [throw]. *)
Inductive completion (A : Type) :=
| Normal (a : A)
| Throw (e : exn).
Arguments Normal {A} a.
Arguments Throw {A} e.

#[export] Instance completion_ret : MRet completion := @Normal.
#[export] Instance completion_bind : MBind completion :=
  fun A B f c => match c with Normal a => f a | Throw e => Throw e end.

(** [ToBoolean]: the falsy values are [undefined], [null], [false],
    [+0], [-0], [NaN] and the empty string. *)
Definition truthy (v : value) : bool :=
  match v with
  | VUndefined | VNull => false
  | VBool b => b
  | VNum n => negb (PrimFloat.eqb n 0%float || negb (PrimFloat.eqb n n))
  | VStr s => negb (String.eqb s "")
  | VArr _ | VObj _ => true
  end.

(** [a || b], with [b] already a value (every right operand in the
    modelled code is a literal). *)
Definition or_else (a b : value) : value := if truthy a then a else b.

Fixpoint assoc (k : string) (props : list (string * value)) : option value :=
  match props with
  | [] => None
  | (k', v) :: rest => if String.eqb k k' then Some v else assoc k rest
  end.

(** [v.k] for the property names the page reads ([data], [awb],
    [attempt_history], [date], [lat], ...): reading from [undefined] or
    [null] throws a [TypeError]; an object yields its own property or
    [undefined]; an array, string, number or boolean has no property of
    any of these names, own or inherited, so the read yields [undefined]. *)
Definition get (v : value) (k : string) : completion value :=
  match v with
  | VUndefined | VNull => Throw TypeError
  | VObj props => Normal (default VUndefined (assoc k props))
  | VBool _ | VNum _ | VStr _ | VArr _ => Normal VUndefined
  end.

(** [v?.k]: short-circuits to [undefined] on [undefined] and [null]. *)
Definition get_opt (v : value) (k : string) : completion value :=
  match v with
  | VUndefined | VNull => Normal VUndefined
  | _ => get v k
  end.

(** [v[0]]: the first element of an array, the first character of a
    string (strings are modelled as sequences of one-byte code units),
    the property ["0"] of an object. *)
Definition get_index0 (v : value) : completion value :=
  match v with
  | VUndefined | VNull => Throw TypeError
  | VArr elems => Normal (default VUndefined (head elems))
  | VStr (String c _) => Normal (VStr (String c EmptyString))
  | VStr EmptyString => Normal VUndefined
  | VObj props => Normal (default VUndefined (assoc "0" props))
  | VBool _ | VNum _ => Normal VUndefined
  end.

(** [xs.map(f)] with the elements visited in order; the first throw of
    the callback aborts the traversal. *)
Fixpoint map_elems {B} (f : value -> completion B) (xs : list value)
  : completion (list B) :=
  match xs with
  | [] => Normal []
  | x :: rest =>
      match f x with
      | Normal y =>
          match map_elems f rest with
          | Normal ys => Normal (y :: ys)
          | Throw e => Throw e
          end
      | Throw e => Throw e
      end
  end.

(** [v.map(f)]: only an array has a callable [map]; on [undefined] and
    [null] the property read throws, on anything else parsed from JSON
    the property is missing or not a function and the call throws. *)
Definition array_map {B} (v : value) (f : value -> completion B)
  : completion (list B) :=
  match v with
  | VArr elems => map_elems f elems
  | _ => Throw TypeError
  end.

(** A value that is neither [undefined] nor [null]. *)
Definition present (v : value) : Prop := v <> VUndefined /\ v <> VNull.

End Js.

(** ** The API client: [src/services/api/index.ts] *)

Module ApiClient.
Import Js.

(** The two pieces of browser state the interceptors touch. *)
Record Browser := {
  localStorage : gmap string string;
  location_href : string
}.

Record Response := {
  status : Z;
  data : value
}.

(** The error axios hands to the rejection handler; [response] is absent
    when no response was received. *)
Record AxiosError := {
  message : string;
  response : option Response
}.

Record RequestConfig := {
  url : string;
  headers : gmap string string
}.

(** A settled promise. *)
Inductive settled (A E : Type) :=
| Fulfilled (a : A)
| Rejected (e : E).
Arguments Fulfilled {A E} a.
Arguments Rejected {A E} e.

Definition getItem (k : string) (b : Browser) : option string :=
  localStorage b !! k.

Definition removeItem (k : string) (b : Browser) : Browser :=
  {| localStorage := delete k (localStorage b);
     location_href := location_href b |}.

Definition set_location_href (target : string) (b : Browser) : Browser :=
  {| localStorage := localStorage b; location_href := target |}.

(** Request interceptor: [if (token)] holds for a stored, non-empty
    token. *)
Definition request_onFulfilled (config : RequestConfig) (b : Browser)
  : RequestConfig :=
  match getItem "auth_token" b with
  | Some token =>
      if String.eqb token "" then config
      else {| url := url config;
              headers := <["Authorization" := "Bearer " +:+ token]> (headers config) |}
  | None => config
  end.

(** Response interceptor, success branch: [(response) => response.data]. *)
Definition response_onFulfilled (r : Response) : value := data r.

(** Response interceptor, failure branch. *)
Definition response_onRejected (error : AxiosError) (b : Browser)
  : settled value AxiosError * Browser :=
  let b' :=
    if bool_decide (status <$> response error = Some 401) then
      set_location_href "/login" (removeItem "auth_token" b)
    else b in
  (Rejected error, b').

(** Sample inputs. *)
Definition error_with_status (code : Z) : AxiosError :=
  {| message := "Request failed";
     response := Some {| status := code; data := VNull |} |}.

Definition signed_in : Browser :=
  {| localStorage := <["auth_token" := "t0k3n"]> (<["theme" := "dark"]> ∅);
     location_href := "/seller/ndr/42" |}.

End ApiClient.

(** ** The NDR view model: the payload reshaping inside [fetchNDRDetails] *)

Module Ndr.
Import Js.

(** The TypeScript interface [NDRDetails] constrains nothing at run time:
    the payload is [any], so a field holds whatever value the payload (or
    the default) supplies. *)
Module Location.
Record t := { lat : value; lng : value }.
End Location.

Module Attempt.
Record t := {
  date : value;
  time : value;
  status : value;
  reason : value;
  comments : value
}.
End Attempt.

Module Customer.
Record t := {
  name : value;
  address1 : value;
  address2 : value;
  city : value;
  state : value;
  pincode : value;
  country : value;
  phone : value;
  email : value
}.
End Customer.

Record NDRDetails := {
  awb : value;
  orderNo : value;
  orderDate : value;
  courier : value;
  customer : value;
  attempts : value;
  lastAttemptDate : value;
  status : value;
  reason : value;
  action : value;
  currentLocation : Location.t;
  deliveryAttempts : list Attempt.t;
  customerDetails : Customer.t;
  products : value
}.

(** [data.data.k] *)
Definition data_data (data : value) (k : string) : completion value :=
  inner ← get data "data"; get inner k.

(** [data.data.delivery_address.k] *)
Definition delivery_address (data : value) (k : string) : completion value :=
  address ← data_data data "delivery_address"; get address k.

(** The callback of [attempt_history.map]. *)
Definition toDeliveryAttempt (attempt : value) : completion Attempt.t :=
  date ← get attempt "date";
  time ← get attempt "time";
  status ← get attempt "status";
  reason ← get attempt "reason";
  agent_remarks ← get attempt "agent_remarks";
  mret {| Attempt.date := date;
          Attempt.time := time;
          Attempt.status := status;
          Attempt.reason := reason;
          Attempt.comments := or_else agent_remarks (VStr "") |}.

(** The argument of [setNdrDetails]: the properties of the object literal
    are evaluated top to bottom, and the first [TypeError] aborts it. *)
Definition toNDRDetails (data : value) : completion NDRDetails :=
  awb ← data_data data "awb";
  order_id ← data_data data "order_id";
  order_date ← data_data data "order_date";
  courier_name ← data_data data "courier_name";
  customer_name ← data_data data "customer_name";
  attempts ← data_data data "attempts";
  history ← data_data data "attempt_history";
  first ← get_index0 history;
  first_date ← get_opt first "date";
  status ← data_data data "status";
  ndr_reason ← data_data data "ndr_reason";
  recommended_action ← data_data data "recommended_action";
  location ← data_data data "current_location";
  lat ← get_opt location "lat";
  location ← data_data data "current_location";
  lng ← get_opt location "lng";
  history ← data_data data "attempt_history";
  deliveryAttempts ← array_map history toDeliveryAttempt;
  fullName ← delivery_address data "fullName";
  addressLine1 ← delivery_address data "addressLine1";
  addressLine2 ← delivery_address data "addressLine2";
  city ← delivery_address data "city";
  state ← delivery_address data "state";
  pincode ← delivery_address data "pincode";
  contactNumber ← delivery_address data "contactNumber";
  email ← delivery_address data "email";
  products ← data_data data "products";
  mret {| awb := awb;
          orderNo := order_id;
          orderDate := order_date;
          courier := courier_name;
          customer := customer_name;
          attempts := attempts;
          lastAttemptDate := or_else first_date (VStr "-");
          status := status;
          reason := ndr_reason;
          action := recommended_action;
          currentLocation :=
            {| Location.lat := or_else lat (VNum 0%float);
               Location.lng := or_else lng (VNum 0%float) |};
          deliveryAttempts := deliveryAttempts;
          customerDetails :=
            {| Customer.name := fullName;
               Customer.address1 := addressLine1;
               Customer.address2 := or_else addressLine2 (VStr "");
               Customer.city := city;
               Customer.state := state;
               Customer.pincode := pincode;
               Customer.country := VStr "India";
               Customer.phone := contactNumber;
               Customer.email := or_else email (VStr "") |};
          products := or_else products (VArr []) |}.

(** Sample payloads, in the shape of the server's envelope. *)
Definition sample_attempt (date : string) (remarks : list (string * value)) : value :=
  VObj ([("date", VStr date); ("time", VStr "10:30 AM");
         ("status", VStr "Failed"); ("reason", VStr "Customer not available")]
        ++ remarks).

Definition sample_payload (history : list value)
    (optional address_optional : list (string * value)) : value :=
  VObj [("success", VBool true);
        ("data",
         VObj ([("awb", VStr "7712345678");
                ("order_id", VStr "ORD-1042");
                ("order_date", VStr "2024-03-01");
                ("courier_name", VStr "BlueDart");
                ("customer_name", VStr "Asha Rao");
                ("attempts", VNum 2%float);
                ("attempt_history", VArr history);
                ("status", VStr "Action Required");
                ("ndr_reason", VStr "Customer not available");
                ("recommended_action", VStr "Reattempt");
                ("delivery_address",
                 VObj ([("fullName", VStr "Asha Rao");
                        ("addressLine1", VStr "14 Lake Road");
                        ("city", VStr "Pune");
                        ("state", VStr "Maharashtra");
                        ("pincode", VStr "411001");
                        ("contactNumber", VStr "9000000000")]
                       ++ address_optional))]
               ++ optional))].

Definition payload_no_attempts : value := sample_payload [] [] [].

Definition payload_two_attempts : value :=
  sample_payload
    [sample_attempt "2024-03-05" [("agent_remarks", VStr "Door locked")];
     sample_attempt "2024-03-03" []]
    [("current_location", VObj [("lat", VNum 18.5%float); ("lng", VNum 73.75%float)])]
    [("addressLine2", VStr "Flat 3"); ("country", VStr "Nepal");
     ("email", VStr "asha@example.com")].

Definition payload_undated_attempt : value :=
  sample_payload [sample_attempt "" []] [] [].

End Ndr.

(** ** Mock tracking: [src/lib/api/tracking.ts] *)

Module Tracking.
Import Js.

Record TrackingEvent := {
  status : string;
  location : string;
  timestamp : string;
  description : option string
}.

Record TrackingInfo := {
  awbNumber : string;
  currentStatus : string;
  expectedDelivery : string;
  origin : string;
  destination : string;
  courier : string;
  events : list TrackingEvent
}.

Record City := { name : string; state : string }.

(** *** Ambient effects

    [random] holds the values the coming calls of [Math.random()] return,
    as exact fractions of the unit interval; [clock] holds the values the
    coming calls of [Date.now()] return, in milliseconds. [timers] records
    the delays awaited and [console] what [console.error] printed. *)
Record World := {
  random : list Q;
  clock : list Z;
  timers : list Z;
  console : list (string * exn)
}.

Definition with_random (rs : list Q) (w : World) : World :=
  {| random := rs; clock := clock w; timers := timers w; console := console w |}.

Definition with_clock (ts : list Z) (w : World) : World :=
  {| random := random w; clock := ts; timers := timers w; console := console w |}.

(** How a computation ends: it returns, it throws, or the model has no
    further reading of the random source or of the clock to give it. *)
Inductive outcome (A : Type) :=
| Returned (a : A)
| Thrown (e : exn)
| Starved.
Arguments Returned {A} a.
Arguments Thrown {A} e.
Arguments Starved {A}.

Definition M (A : Type) : Type := World -> outcome A * World.

#[export] Instance M_ret : MRet M := fun A a w => (Returned a, w).
#[export] Instance M_bind : MBind M :=
  fun A B f c w =>
    match c w with
    | (Returned a, w') => f a w'
    | (Thrown e, w') => (Thrown e, w')
    | (Starved, w') => (Starved, w')
    end.

Definition throw {A} (e : exn) : M A := fun w => (Thrown e, w).

(** [try { body } catch (error) { handler }] *)
Definition try_catch {A} (body : M A) (handler : exn -> M A) : M A :=
  fun w =>
    match body w with
    | (Thrown e, w') => handler e w'
    | r => r
    end.

Definition Math_random : M Q :=
  fun w =>
    match random w with
    | [] => (Starved, w)
    | r :: rs => (Returned r, with_random rs w)
    end.

Definition Date_now : M Z :=
  fun w =>
    match clock w with
    | [] => (Starved, w)
    | t :: ts => (Returned t, with_clock ts w)
    end.

(** [await new Promise(resolve => setTimeout(resolve, ms))] *)
Definition sleep (ms : Z) : M unit :=
  fun w =>
    (Returned tt,
     {| random := random w; clock := clock w;
        timers := timers w ++ [ms]; console := console w |}).

Definition console_error (label : string) (e : exn) : M unit :=
  fun w =>
    (Returned tt,
     {| random := random w; clock := clock w;
        timers := timers w; console := console w ++ [(label, e)] |}).

(** [Math.floor(r * n)], computed on the exact fraction. (The binary64
    product may round to the next integer where the exact product lies
    just below it; for [n] = 10 and [n] = 3 and [r] below 1 it stays
    below [n] either way.) *)
Definition floor_times (r : Q) (n : Z) : Z := Qfloor (r * inject_Z n).

(** [xs[i]]: [undefined] (here [None]) outside the array. *)
Definition at_index {A} (xs : list A) (i : Z) : option A :=
  if i <? 0 then None else xs !! Z.to_nat i.

(** Reading a property of [xs[i]]: a [TypeError] when it is [undefined]. *)
Definition deref {A} (x : option A) : M A :=
  match x with
  | Some a => mret a
  | None => throw TypeError
  end.

Definition hours (h : Z) : Z := h * 60 * 60 * 1000.
Definition days (d : Z) : Z := d * 24 * 60 * 60 * 1000.

Definition cities : list City := [
  {| name := "Mumbai"; state := "Maharashtra" |};
  {| name := "Delhi"; state := "Delhi" |};
  {| name := "Bangalore"; state := "Karnataka" |};
  {| name := "Hyderabad"; state := "Telangana" |};
  {| name := "Chennai"; state := "Tamil Nadu" |};
  {| name := "Kolkata"; state := "West Bengal" |};
  {| name := "Ahmedabad"; state := "Gujarat" |};
  {| name := "Pune"; state := "Maharashtra" |};
  {| name := "Jaipur"; state := "Rajasthan" |};
  {| name := "Lucknow"; state := "Uttar Pradesh" |}
].

Definition cities_length : Z := Z.of_nat (length cities).

(** The template literal [`${city.name}, ${city.state}`]. *)
Definition place (c : City) : string := name c +:+ ", " +:+ state c.

(** [while (destIndex === originIndex) destIndex = Math.floor(Math.random() * cities.length)],
    run on the readings [rs] still to come: each turn of the loop takes
    one. It gives the final [destIndex] and the readings left. *)
Fixpoint redraw_while_equal (originIndex destIndex : Z) (rs : list Q)
  : outcome Z * list Q :=
  if destIndex =? originIndex then
    match rs with
    | [] => (Starved, [])
    | r :: rest => redraw_while_equal originIndex (floor_times r cities_length) rest
    end
  else (Returned destIndex, rs).

Definition pick_destination (originIndex destIndex : Z) : M Z :=
  fun w =>
    let '(o, rs) := redraw_while_equal originIndex destIndex (random w) in
    (o, with_random rs w).

(** [/^\d{10}$/.test(s)]: from the start of the input, exactly ten
    characters of [0-9], then the end of the input (no [m] flag: [$] is the
    end of the string only). *)
Definition is_digit (c : Ascii.ascii) : bool :=
  let n := Ascii.nat_of_ascii c in (48 <=? n)%nat && (n <=? 57)%nat.

Fixpoint match_digits (n : nat) (s : string) : option string :=
  match n with
  | O => Some s
  | S n' =>
      match s with
      | String c rest => if is_digit c then match_digits n' rest else None
      | EmptyString => None
      end
  end.

Definition awb_pattern_test (s : string) : bool :=
  match match_digits 10 s with
  | Some EmptyString => true
  | _ => false
  end.

Section Locale.

(** [new Date(ms).toLocaleString()] and [new Date(ms).toLocaleDateString()]
    depend on the host's locale and time zone. *)
Variable toLocaleString : Z -> string.
Variable toLocaleDateString : Z -> string.

(** [new Date(Date.now() + offset).toLocaleString()] *)
Definition locale_string_from_now (offset : Z) : M string :=
  now ← Date_now; mret (toLocaleString (now + offset)).

Definition locale_date_from_now (offset : Z) : M string :=
  now ← Date_now; mret (toLocaleDateString (now + offset)).

Definition event_from_now (status location : string) (offset : Z)
    (description : string) : M TrackingEvent :=
  timestamp ← locale_string_from_now offset;
  mret {| status := status; location := location;
          timestamp := timestamp; description := Some description |}.

(** The module-level constant [dummyTrackingData]: evaluated once, when
    the module is loaded; each [Date.now()] in it is a reading of its own. *)
Definition dummyTrackingData : M (gmap string TrackingInfo) :=
  expected1 ← locale_date_from_now (days 2);
  e11 ← event_from_now "In Transit" "Hyderabad, Telangana" (- hours 12)
         "Shipment departed from transit facility";
  e12 ← event_from_now "In Transit" "Pune, Maharashtra" (- hours 24)
         "Shipment arrived at transit facility";
  e13 ← event_from_now "Shipped" "Mumbai, Maharashtra" (- hours 48)
         "Shipment picked up from sender";
  expected2 ← locale_date_from_now (- days 1);
  e21 ← event_from_now "Delivered" "Jaipur, Rajasthan" (- hours 6)
         "Package delivered to recipient";
  e22 ← event_from_now "Out for Delivery" "Jaipur, Rajasthan" (- hours 12)
         "Package is out for delivery";
  e23 ← event_from_now "In Transit" "Gurugram, Haryana" (- hours 24)
         "Shipment in transit to destination";
  e24 ← event_from_now "Shipped" "Delhi, Delhi" (- hours 48)
         "Shipment picked up from sender";
  expected3 ← locale_date_from_now 0;
  e31 ← event_from_now "Out for Delivery" "Coimbatore, Tamil Nadu" (- hours 4)
         "Package is out for delivery";
  e32 ← event_from_now "In Transit" "Salem, Tamil Nadu" (- hours 18)
         "Shipment in transit to destination";
  e33 ← event_from_now "Shipped" "Chennai, Tamil Nadu" (- hours 36)
         "Shipment picked up from sender";
  mret (
    <["1234567890" :=
        {| awbNumber := "1234567890";
           currentStatus := "In Transit";
           expectedDelivery := expected1;
           origin := "Mumbai, Maharashtra";
           destination := "Bangalore, Karnataka";
           courier := "RocketryBox Express";
           events := [e11; e12; e13] |}]> (
    <["9876543210" :=
        {| awbNumber := "9876543210";
           currentStatus := "Delivered";
           expectedDelivery := expected2;
           origin := "Delhi, Delhi";
           destination := "Jaipur, Rajasthan";
           courier := "RocketryBox Premium";
           events := [e21; e22; e23; e24] |}]> (
    <["5678901234" :=
        {| awbNumber := "5678901234";
           currentStatus := "Out for Delivery";
           expectedDelivery := expected3;
           origin := "Chennai, Tamil Nadu";
           destination := "Coimbatore, Tamil Nadu";
           courier := "RocketryBox Standard";
           events := [e31; e32; e33] |}]> ∅))).

(** [getRandomCity] *)
Definition getRandomCity : M (option City) :=
  r ← Math_random;
  mret (at_index cities (floor_times r cities_length)).

(** The body of [for (let i = 0; i < transitPoints; i++)], with [remaining]
    turns still to run: each turn puts its event in front of [events]. *)
Fixpoint transit_loop (remaining : nat) (i now : Z) (events : list TrackingEvent)
  : M (list TrackingEvent) :=
  match remaining with
  | O => mret events
  | S remaining' =>
      city ← getRandomCity;
      city ← deref city;
      transit_loop remaining' (i + 1) now
        ({| status := "In Transit";
            location := place city;
            timestamp := toLocaleString (now - hours (24 - i * 8));
            description := Some "Shipment in transit to destination" |}
         :: events)
  end.

Definition generateRandomTrackingInfo (awbNumber : string) : M TrackingInfo :=
  r ← Math_random;
  let originIndex := floor_times r cities_length in
  r ← Math_random;
  destIndex ← pick_destination originIndex (floor_times r cities_length);
  let origin := at_index cities originIndex in
  let destination := at_index cities destIndex in
  now ← Date_now;
  origin ← deref origin;
  let events :=
    [{| status := "Shipped";
        location := place origin;
        timestamp := toLocaleString (now - hours 48);
        description := Some "Shipment picked up from sender" |}] in
  r ← Math_random;
  let transitPoints := floor_times r 3 + 1 in
  events ← transit_loop (Z.to_nat transitPoints) 0 now events;
  let expectedDelivery := toLocaleDateString (now + days 3) in
  destination ← deref destination;
  mret {| awbNumber := awbNumber;
          currentStatus := "In Transit";
          expectedDelivery := expectedDelivery;
          origin := place origin;
          destination := place destination;
          courier := "RocketryBox Express";
          events := events |}.

(** [fetchTrackingInfo], given the table the module built when it was
    loaded. [!awbNumber] holds for the empty string. *)
Definition fetchTrackingInfo (dummy : gmap string TrackingInfo)
    (awbNumber : string) : M TrackingInfo :=
  try_catch
    (_ ← sleep 1000;
     if String.eqb awbNumber "" || negb (awb_pattern_test awbNumber) then
       throw (Error "Invalid AWB number. Please provide a 10-digit AWB number.")
     else
       match dummy !! awbNumber with
       | Some info => mret info
       | None => generateRandomTrackingInfo awbNumber
       end)
    (fun error =>
       _ ← console_error "Error fetching tracking info:" error;
       throw error).

(** An event of the canned table, stamped with the rendering of [instant]. *)
Definition canned_event (status location : string) (instant : Z)
    (description : string) : TrackingEvent :=
  {| status := status; location := location;
     timestamp := toLocaleString instant; description := Some description |}.

(** The two shapes of event the generator builds, and the events of a
    run that visits [visited] (in the order drawn, the first at index [i]):
    the loop puts each new event in front, so the last drawn comes first. *)
Definition shipped_event (origin : City) (now : Z) : TrackingEvent :=
  {| status := "Shipped";
     location := place origin;
     timestamp := toLocaleString (now - hours 48);
     description := Some "Shipment picked up from sender" |}.

Definition transit_event (now i : Z) (city : City) : TrackingEvent :=
  {| status := "In Transit";
     location := place city;
     timestamp := toLocaleString (now - hours (24 - i * 8));
     description := Some "Shipment in transit to destination" |}.

Fixpoint transit_events (now i : Z) (visited : list City) : list TrackingEvent :=
  match visited with
  | [] => []
  | city :: rest => transit_events now (i + 1) rest ++ [transit_event now i city]
  end.

End Locale.

(** *** What the call needs from its environment

    [Math.random()] returns a number in the interval from 0 (inclusive) to
    1 (exclusive). *)
Definition unit_draw (r : Q) : Prop := (0 <= r)%Q /\ (r < 1)%Q.

(** The readings to come let [generateRandomTrackingInfo] run to its end,
    reading the clock at [now]: [r0] picks the origin; the readings
    [retries] all fall on the origin's index again and [r1] is the first
    that does not (the loop ends only then); [rt] gives the number of
    transit points and [cs] has one reading for each of them. *)
Definition fair_supply (w : World) (now : Z) : Prop :=
  exists (r0 : Q) (retries : list Q) (r1 rt : Q) (cs rest : list Q) (later : list Z),
    random w = r0 :: retries ++ r1 :: rt :: cs ++ rest /\
    clock w = now :: later /\
    unit_draw r0 /\ unit_draw r1 /\ unit_draw rt /\ Forall unit_draw cs /\
    Forall (fun r => floor_times r cities_length = floor_times r0 cities_length) retries /\
    floor_times r1 cities_length <> floor_times r0 cities_length /\
    length cs = Z.to_nat (floor_times rt 3 + 1).

(** The world after the one-second wait of [fetchTrackingInfo]. *)
Definition after_wait (w : World) : World :=
  {| random := random w; clock := clock w;
     timers := timers w ++ [1000]; console := console w |}.

(** The world a completed run of the generator leaves behind: the
    readings [rest] and [later] are still to come. *)
Definition consumed (w : World) (rest : list Q) (later : list Z) : World :=
  {| random := rest; clock := later; timers := timers w; console := console w |}.

(** The error thrown for a malformed identifier, and the world after a
    rejected call: the wait, then the logged error. *)
Definition invalid_awb : exn :=
  Error "Invalid AWB number. Please provide a 10-digit AWB number.".

Definition after_rejection (w : World) : World :=
  {| random := random w; clock := clock w;
     timers := timers w ++ [1000];
     console := console w ++ [("Error fetching tracking info:", invalid_awb)] |}.

(** Sample inputs: a plain rendering of instants, and worlds. *)
Definition plain (ms : Z) : string := pretty ms.

Definition load_world : World :=
  {| random := [];
     clock := [1700000000000; 1700000000000; 1700000000001; 1700000000001;
               1700000000001; 1700000000002; 1700000000002; 1700000000002;
               1700000000003; 1700000000003; 1700000000003; 1700000000004;
               1700000000004];
     timers := []; console := [] |}.

Definition call_world (now : Z) : World :=
  {| random := [3 # 10; 3 # 10; 35 # 100; 7 # 10; 1 # 2; 0 # 1; 99 # 100; 1 # 4]%Q;
     clock := [now];
     timers := []; console := [] |}.

(** The keys of [dummyTrackingData], and for each the offsets of its
    events' timestamps from the clock, in the order of the events. *)
Definition canned_awbs : list string := ["1234567890"; "9876543210"; "5678901234"].

Definition canned_offsets (awbNumber : string) : list Z :=
  if String.eqb awbNumber "1234567890" then [- hours 12; - hours 24; - hours 48]
  else if String.eqb awbNumber "9876543210" then [- hours 6; - hours 12; - hours 24; - hours 48]
  else if String.eqb awbNumber "5678901234" then [- hours 4; - hours 18; - hours 36]
  else [].

(** The table the module builds in [load_world], instants rendered plainly. *)
Definition loaded_table : gmap string TrackingInfo :=
  match dummyTrackingData plain plain load_world with
  | (Returned table, _) => table
  | _ => ∅
  end.

End Tracking.

(** ** A session of the API client: rejections handled one after another *)

Module ApiSession.
Import Js ApiClient.

(** The browser after the rejection handler has run on each error of
    [errors], in order. *)
Definition handle_all (errors : list AxiosError) (b : Browser) : Browser :=
  foldl (fun b error => snd (response_onRejected error b)) b errors.

(** [error.response?.status === 401] *)
Definition unauthorized (error : AxiosError) : Prop :=
  status <$> response error = Some 401.

(** Sample inputs. *)
Definition bare_request : RequestConfig :=
  {| url := "/orders";
     headers := <["Content-Type" := "application/json"]> ∅ |}.

Definition network_down : AxiosError :=
  {| message := "Network Error"; response := None |}.

End ApiSession.

(** ** The NDR transformation: its one failure, and further sample payloads *)

Module NdrSamples.
Import Js Ndr.

(** A computation that throws nothing but a [TypeError]. *)
Definition throws_only_TypeError {A} (c : completion A) : Prop :=
  forall e, c = Throw e -> e = TypeError.

Definition payload_partial_location : value :=
  sample_payload []
    [("current_location", VObj [("lat", VNum 18.5%float)]);
     ("products", VArr [VObj [("name", VStr "Kettle"); ("quantity", VNum 1%float)]])]
    [].

Definition payload_null_location : value :=
  sample_payload [] [("current_location", VNull); ("products", VNull)] [].

End NdrSamples.

(** ** The NDR details page: [fetchNDRDetails], what is rendered, [handleSubmitAction] *)

Module NdrPage.
Import Js Ndr.

(** The text of [err.message]: the message an [Error] was built with, or
    the engine's own (non-empty) wording of a [TypeError]. *)
Inductive error_text :=
| Message (text : string)
| EngineMessage.

Definition message_of (e : exn) : error_text :=
  match e with
  | Error text => Message text
  | TypeError => EngineMessage
  end.

(** Truthiness of a message: only the empty string is falsy. *)
Definition shown (m : error_text) : bool :=
  match m with
  | Message text => negb (String.eqb text "")
  | EngineMessage => true
  end.

(** The component state set through [useState]. *)
Record PageState := {
  loading : bool;
  error : option error_text;
  ndrDetails : option NDRDetails
}.

Record Request := {
  url : string;
  authorization : string
}.

Inductive toast :=
| ToastError (text : string)
| ToastSuccess (text : string).

(** What the page does to the outside: requests sent, notifications
    shown, and the two kinds of console output. *)
Record Effects := {
  requests : list Request;
  toasts : list toast;
  errors_logged : list (string * exn);
  actions_logged : list (string * string)
}.

(** How a request ends: [fetch] rejects, or a response arrives, with its
    [ok] flag and the completion of [response.json()]. *)
Inductive answer :=
| Unreachable (e : exn)
| Answered (ok : bool) (json : completion value).

(** The state the component is created with. *)
Definition initial : PageState :=
  {| loading := true; error := None; ndrDetails := None |}.

Definition no_effects : Effects :=
  {| requests := []; toasts := []; errors_logged := []; actions_logged := [] |}.

(** [!id]: the route parameter is missing or empty. *)
Definition missing (id : option string) : bool :=
  match id with
  | None => true
  | Some text => String.eqb text ""
  end.

Section Page.

(** [import.meta.env.VITE_API_URL] *)
Variable VITE_API_URL : string.

(** [fetchNDRDetails] up to its first [await]: [setLoading(true)],
    [setError(null)], and the request is sent. *)
Definition begin_fetch (id token : string) (p : PageState * Effects)
  : PageState * Effects :=
  let '(st, fx) := p in
  ({| loading := true; error := None; ndrDetails := ndrDetails st |},
   {| requests := requests fx ++
        [{| url := VITE_API_URL +:+ "/api/v2/seller/ndr/" +:+ id;
            authorization := "Bearer " +:+ token |}];
      toasts := toasts fx;
      errors_logged := errors_logged fx;
      actions_logged := actions_logged fx |}).

(** What the [try] block comes to once the request has ended. *)
Definition received (a : answer) : completion NDRDetails :=
  match a with
  | Unreachable e => Throw e
  | Answered ok json =>
      if negb ok then Throw (Error "Failed to fetch NDR details")
      else data ← json; toNDRDetails data
  end.

(** The rest of [fetchNDRDetails]: [setNdrDetails], or the [catch] block,
    and then the [finally] block. *)
Definition settle_fetch (a : answer) (p : PageState * Effects)
  : PageState * Effects :=
  let '(st, fx) := p in
  match received a with
  | Normal d =>
      ({| loading := false; error := error st; ndrDetails := Some d |}, fx)
  | Throw err =>
      ({| loading := false; error := Some (message_of err);
          ndrDetails := ndrDetails st |},
       {| requests := requests fx;
          toasts := toasts fx ++ [ToastError "Failed to fetch NDR details"];
          errors_logged := errors_logged fx ++ [("Error fetching NDR details:", err)];
          actions_logged := actions_logged fx |})
  end.

Definition fetchNDRDetails (id : option string) (token : string) (a : answer)
    (p : PageState * Effects) : PageState * Effects :=
  match id with
  | Some text => if missing id then p else settle_fetch a (begin_fetch text token p)
  | None => p
  end.

(** The request [fetchNDRDetails] sends for [id]. *)
Definition request_for (id token : string) : Request :=
  {| url := VITE_API_URL +:+ "/api/v2/seller/ndr/" +:+ id;
     authorization := "Bearer " +:+ token |}.

(** A load that failed with [e], started from [p] and arrived at [p']:
    the details of before are kept, the message of [e] is the error, and
    one request, one notification and one log entry have been added. *)
Definition failed_with (e : exn) (id token : string) (p p' : PageState * Effects) : Prop :=
  fst p' = {| loading := false; error := Some (message_of e);
              ndrDetails := ndrDetails (fst p) |} /\
  requests (snd p') = requests (snd p) ++ [request_for id token] /\
  toasts (snd p') = toasts (snd p) ++ [ToastError "Failed to fetch NDR details"] /\
  errors_logged (snd p')
    = errors_logged (snd p) ++ [("Error fetching NDR details:", e)] /\
  actions_logged (snd p') = actions_logged (snd p).

End Page.

(** What the component renders. *)
Inductive view :=
| Spinner
| ErrorView (text : error_text)
| DetailsView (d : NDRDetails).

Definition error_or_default (e : option error_text) : error_text :=
  match e with
  | Some m => if shown m then m else Message "NDR details not found"
  | None => Message "NDR details not found"
  end.

(** The hooks a render calls, in order. *)
Inductive hook :=
| UseParams
| UseAuth
| UseState (name : string)
| UseEffect.

(** One call of the component function [NDRDetailsPage]: the hooks it
    calls and what it returns, every hook call taken to return. The two
    early returns come before the three [useState] calls of the action
    form. (React expects the same hooks on every render; what it does
    when they differ is not part of this model.) *)
Definition component (st : PageState) : list hook * view :=
  let first_hooks :=
    [UseParams; UseAuth; UseState "loading"; UseState "error";
     UseState "ndrDetails"; UseEffect] in
  if loading st then (first_hooks, Spinner)
  else
    match ndrDetails st with
    | Some d =>
        if match error st with Some m => shown m | None => false end
        then (first_hooks, ErrorView (error_or_default (error st)))
        else (first_hooks ++
                [UseState "selectedAction"; UseState "comments";
                 UseState "isSubmitting"],
              DetailsView d)
    | None => (first_hooks, ErrorView (error_or_default (error st)))
    end.

Definition render (st : PageState) : view := snd (component st).

Definition hooks_called (st : PageState) : list hook := fst (component st).

(** The action form and [handleSubmitAction]. *)
Record Form := {
  selectedAction : string;
  comments : string;
  isSubmitting : bool
}.

Definition initial_form : Form :=
  {| selectedAction := "reschedule"; comments := ""; isSubmitting := false |}.

(** Up to the [await]: [setIsSubmitting(true)]. *)
Definition begin_submit (f : Form) : Form :=
  {| selectedAction := selectedAction f; comments := comments f;
     isSubmitting := true |}.

(** After the wait: the log, the notification, [setComments("")], and in
    the [finally] block [setIsSubmitting(false)]. [submitted] is the form
    the handler was created with: it logs that form's values. *)
Definition settle_submit (submitted : Form) (p : Form * Effects) : Form * Effects :=
  let '(f, fx) := p in
  ({| selectedAction := selectedAction f; comments := ""; isSubmitting := false |},
   {| requests := requests fx;
      toasts := toasts fx ++ [ToastSuccess "Action submitted successfully!"];
      errors_logged := errors_logged fx;
      actions_logged := actions_logged fx
                        ++ [(selectedAction submitted, comments submitted)] |}).

Definition handleSubmitAction (p : Form * Effects) : Form * Effects :=
  settle_submit (fst p) (begin_submit (fst p), snd p).

(** Sample inputs. *)
Definition unparsable : answer :=
  Answered true (Throw (Error "Unexpected token < in JSON at position 0")).

Definition sample_state : PageState * Effects := (initial, no_effects).

Definition stale (d : NDRDetails) : PageState :=
  {| loading := false; error := None; ndrDetails := Some d |}.

End NdrPage.

(** ** Contracts for computations of the tracking module *)

Module TrackingContracts.
Import Js Tracking.

(** From [w] to [w'] nothing was awaited or printed, and the readings
    still to come in [w'] are what is left of those in [w]: readings are
    taken in order, and none is put back or made up. *)
Definition advances (w w' : World) : Prop :=
  timers w' = timers w /\
  console w' = console w /\
  random w' `suffix_of` random w /\
  clock w' `suffix_of` clock w.

Section Contract.

(** What is known of every reading of the random source. *)
Variable U : Q -> Prop.

(** An index computed from a reading as [Math.floor(r * cities.length)]. *)
Definition drawn (i : Z) : Prop :=
  exists r, U r /\ i = floor_times r cities_length.

(** The one failure the generator can meet: a [TypeError], on an index
    that falls outside the list of cities. *)
Definition bad_draw (e : exn) : Prop :=
  e = TypeError /\
  exists r, U r /\ ~ (0 <= floor_times r cities_length < cities_length).

(** [c] only advances the world; what it returns satisfies [post]; if it
    throws, it is because of a bad draw. *)
Definition meets {A} (c : M A) (post : A -> Prop) : Prop :=
  forall w,
    Forall U (random w) ->
    advances w (snd (c w)) /\
    match fst (c w) with
    | Returned a => post a
    | Thrown e => bad_draw e
    | Starved => True
    end.

End Contract.

(** The world after the [catch] block has logged [e]. *)
Definition logged (e : exn) (w : World) : World :=
  {| random := random w; clock := clock w; timers := timers w;
     console := console w ++ [("Error fetching tracking info:", e)] |}.

(** The events of [info] end with a ["Shipped"] event located at its
    origin. *)
Definition ends_shipped_at_origin (info : TrackingInfo) : Prop :=
  exists e, last (events info) = Some e /\
            status e = "Shipped" /\ location e = origin info.

(** Sample worlds: a random source stuck on one index, and one that
    yields a number outside the unit interval. *)
Definition stuck_world : World :=
  {| random := [3 # 10; 31 # 100; 39 # 100; 3 # 10; 35 # 100]%Q;
     clock := [1700000100000]; timers := []; console := [] |}.

Definition broken_random_world : World :=
  {| random := [3 # 2; 1 # 2; 1 # 2; 1 # 2]%Q;
     clock := [1700000100000]; timers := []; console := [] |}.

End TrackingContracts.

(** * Properties *)

(** ** The response interceptor *)

Module ApiClientSpec.
Import Js ApiClient.

Lemma removeItem_lookup (k k' : string) (b : Browser) :
  getItem k' (removeItem k b) = if decide (k = k') then None else getItem k' b.
Proof. unfold getItem, removeItem; cbn. apply lookup_delete. Qed.

(** Claim C4. When the rejection handler of the response interceptor gets
    an error whose response status is 401, the stored credential is
    removed (every other stored key is kept), the location is set to the
    login route, and the handler rejects with that same error. On any
    other status, or with no response at all, the browser state is left
    as it was and the handler rejects with that same error. *)
Theorem response_onRejected_401_clears_credential
    (error : AxiosError) (b : Browser) :
  (status <$> response error = Some 401 ->
     exists b',
       response_onRejected error b = (Rejected error, b') /\
       getItem "auth_token" b' = None /\
       location_href b' = "/login" /\
       (forall k, k <> "auth_token" -> getItem k b' = getItem k b)) /\
  (status <$> response error <> Some 401 ->
     response_onRejected error b = (Rejected error, b)).
Proof.
  unfold response_onRejected. split; intros Hst.
  - rewrite bool_decide_eq_true_2 by exact Hst.
    eexists; split; [reflexivity|].
    change (getItem "auth_token" (set_location_href "/login" (removeItem "auth_token" b)))
      with (getItem "auth_token" (removeItem "auth_token" b)).
    rewrite removeItem_lookup, decide_True by reflexivity.
    split; [reflexivity|]. split; [reflexivity|].
    intros k Hk.
    change (getItem k (set_location_href "/login" (removeItem "auth_token" b)))
      with (getItem k (removeItem "auth_token" b)).
    rewrite removeItem_lookup, decide_False by congruence. reflexivity.
  - rewrite bool_decide_eq_false_2 by exact Hst. reflexivity.
Qed.

Lemma response_onRejected_401_and_500_run :
  (getItem "auth_token" (snd (response_onRejected (error_with_status 401) signed_in)) = None /\
   getItem "theme" (snd (response_onRejected (error_with_status 401) signed_in)) = Some "dark" /\
   location_href (snd (response_onRejected (error_with_status 401) signed_in)) = "/login") /\
  response_onRejected (error_with_status 500) signed_in
    = (Rejected (error_with_status 500), signed_in).
Proof.
  split.
  - destruct (response_onRejected_401_clears_credential (error_with_status 401) signed_in)
      as [H401 _].
    destruct (H401 eq_refl) as (b' & Hrun & Htok & Hloc & Hkeep).
    rewrite Hrun; cbn [snd]. repeat split.
    + exact Htok.
    + rewrite Hkeep by discriminate. reflexivity.
    + exact Hloc.
  - destruct (response_onRejected_401_clears_credential (error_with_status 500) signed_in)
      as [_ H500].
    apply H500. discriminate.
Defined.

End ApiClientSpec.

(** ** The NDR transformation *)

Module NdrSpec.
Import Js Ndr.

Lemma bind_Normal_inv {A B} (c : completion A) (f : A -> completion B) (b : B) :
  c ≫= f = Normal b -> exists a, c = Normal a /\ f a = Normal b.
Proof. destruct c as [a|e]; [eauto | discriminate]. Qed.

(** Take a successful chain of reads apart, one read at a time, and
    identify the results of repeated reads of the same property. *)
Ltac invert_reads H :=
  unfold delivery_address, data_data in H;
  repeat match goal with
         | G : _ ≫= _ = Normal _ |- _ => apply bind_Normal_inv in G as (? & ? & G)
         end;
  repeat match goal with
         | G1 : ?c = Normal ?a, G2 : ?c = Normal ?b |- _ =>
             assert (b = a) by congruence; subst b; clear G2
         end;
  try (cbv [mret completion_ret] in H; injection H as <-).

Lemma map_elems_Forall2 {B} (f : value -> completion B) (xs : list value) (ys : list B) :
  map_elems f xs = Normal ys -> Forall2 (fun x y => f x = Normal y) xs ys.
Proof.
  revert ys; induction xs as [|x xs IH]; intros ys H; cbn in H.
  - injection H as <-. constructor.
  - destruct (f x) as [y|] eqn:Hy; [|discriminate].
    destruct (map_elems f xs) as [ys'|]; [|discriminate].
    injection H as <-. constructor; auto.
Qed.

Lemma get_present (v : value) (k : string) :
  present v -> exists x, get v k = Normal x.
Proof. intros [? ?]; destruct v; cbn; eauto; congruence. Qed.

Lemma get_Normal_present (v x : value) (k : string) :
  get v k = Normal x -> present v.
Proof. destruct v; cbn; intros; try discriminate; split; discriminate. Qed.

Lemma toDeliveryAttempt_present (a : value) :
  present a -> exists t, toDeliveryAttempt a = Normal t.
Proof.
  intros Ha. unfold toDeliveryAttempt.
  destruct (get_present a "date" Ha) as [? ->].
  destruct (get_present a "time" Ha) as [? ->].
  destruct (get_present a "status" Ha) as [? ->].
  destruct (get_present a "reason" Ha) as [? ->].
  destruct (get_present a "agent_remarks" Ha) as [? ->].
  cbn. eauto.
Qed.

(** The transformation yields a view model exactly for the payloads whose
    [data] and [data.delivery_address] are present and whose
    [data.attempt_history] is an array of present elements; on every other
    payload it throws. *)
Lemma toNDRDetails_defined (data : value) :
  (exists d, toNDRDetails data = Normal d) <->
  (exists inner history address,
     get data "data" = Normal inner /\
     get inner "attempt_history" = Normal (VArr history) /\
     Forall present history /\
     get inner "delivery_address" = Normal address /\
     present address).
Proof.
  split.
  - intros [d H]. unfold toNDRDetails in H. invert_reads H.
    match goal with G : array_map ?h _ = Normal _ |- _ =>
      destruct h; try discriminate; rename G into Hmap end.
    match goal with G : get _ "fullName" = Normal _ |- _ =>
      apply get_Normal_present in G; rename G into Haddr end.
    cbn in Hmap. apply map_elems_Forall2 in Hmap.
    do 3 eexists. repeat split; eauto.
    + clear -Hmap. induction Hmap as [|a t ? ? Ha _ IH]; constructor; auto.
      unfold toDeliveryAttempt in Ha. apply bind_Normal_inv in Ha as (? & Ha & _).
      eapply get_Normal_present, Ha.
    + apply Haddr.
    + apply Haddr.
  - intros (inner & history & address & Hdata & Hhist & Hall & Haddr & Hpres).
    assert (Hinner : present inner) by (eapply get_Normal_present, Hhist).
    assert (exists ts, map_elems toDeliveryAttempt history = Normal ts) as [ts Hts].
    { clear -Hall. induction Hall as [|a l Ha _ [ts IH]]; cbn; eauto.
      destruct (toDeliveryAttempt_present a Ha) as [t ->]. rewrite IH. eauto. }
    assert (exists first_date, (get_index0 (VArr history) ≫= fun first => get_opt first "date")
                               = Normal first_date) as [first_date Hfirst].
    { destruct Hall as [|a l Ha _]; cbn; eauto.
      destruct (get_present a "date" Ha) as [x Hx].
      exists x. destruct a; cbn in *; try exact Hx; destruct Ha; congruence. }
    apply bind_Normal_inv in Hfirst as (first & Hfirst & Hdate).
    unfold toNDRDetails, delivery_address, data_data.
    repeat first
      [ progress cbn [mbind completion_bind array_map]
      | rewrite Hdata | rewrite Hhist | rewrite Haddr
      | rewrite Hfirst | rewrite Hdate | rewrite Hts
      | match goal with
        | |- context [get inner ?k] =>
            let x := fresh "x" in
            destruct (get_present inner k Hinner) as [x ->]
        | |- context [get address ?k] =>
            let x := fresh "x" in
            destruct (get_present address k Hpres) as [x ->]
        | |- context [get_opt ?v ?k] =>
            let x := fresh "x" in
            assert (exists x, get_opt v k = Normal x) as [x ->]
              by (destruct v; cbn; eauto)
        end ].
    eauto.
Qed.

(** Claim C5 (amended). For a payload the transformation accepts: when
    [attempt_history] is the empty array, [lastAttemptDate] is the
    placeholder ["-"] and [deliveryAttempts] is empty; when it is not
    empty, [lastAttemptDate] is the [date] of its first element if that
    date is truthy, and the placeholder ["-"] if it is absent, empty or
    otherwise falsy. *)
Theorem lastAttemptDate_first_date_or_placeholder (data : value) (d : NDRDetails) :
  toNDRDetails data = Normal d ->
  (data_data data "attempt_history" = Normal (VArr []) ->
     lastAttemptDate d = VStr "-" /\ deliveryAttempts d = []) /\
  (forall attempt rest date,
     data_data data "attempt_history" = Normal (VArr (attempt :: rest)) ->
     get attempt "date" = Normal date ->
     lastAttemptDate d = if truthy date then date else VStr "-").
Proof.
  intros H. unfold toNDRDetails in H. split.
  - intros Hhist. invert_reads H. invert_reads Hhist.
    simplify_eq/=. auto.
  - intros attempt rest date Hhist Hdate. invert_reads H. invert_reads Hhist.
    simplify_eq/=.
    match goal with
    | G : get_opt ?a "date" = Normal ?x, G' : get ?a "date" = Normal date |- _ =>
        assert (x = date) as -> by (destruct a; cbn in *; congruence)
    end.
    reflexivity.
Qed.

(** Claim C6. For a payload the transformation accepts: when
    [current_location] is omitted the coordinate is [{lat: 0, lng: 0}];
    [country] is ["India"] whatever the payload holds; [address2] and
    [email] are the empty string when [addressLine2], respectively
    [email], is absent from the delivery address. *)
Theorem defaults_location_country_address2_email (data : value) (d : NDRDetails) :
  toNDRDetails data = Normal d ->
  (data_data data "current_location" = Normal VUndefined ->
     currentLocation d = {| Location.lat := VNum 0%float; Location.lng := VNum 0%float |}) /\
  Customer.country (customerDetails d) = VStr "India" /\
  (delivery_address data "addressLine2" = Normal VUndefined ->
     Customer.address2 (customerDetails d) = VStr "") /\
  (delivery_address data "email" = Normal VUndefined ->
     Customer.email (customerDetails d) = VStr "").
Proof.
  intros H. unfold toNDRDetails in H. repeat split.
  - intros Hloc. invert_reads H. invert_reads Hloc. simplify_eq/=. reflexivity.
  - invert_reads H. reflexivity.
  - intros Hline. invert_reads H. invert_reads Hline. simplify_eq/=. reflexivity.
  - intros Hmail. invert_reads H. invert_reads Hmail. simplify_eq/=. reflexivity.
Qed.

(** Claim C10. For a payload the transformation accepts, whose
    [attempt_history] is the array [history]: [deliveryAttempts] has the
    length of [history], and its element at each position takes [date],
    [time], [status] and [reason] from the attempt at that position, and
    has the empty string for [comments] when the attempt has no
    [agent_remarks] (in general, [agent_remarks || '']). *)
Theorem deliveryAttempts_follow_attempt_history
    (data : value) (d : NDRDetails) (history : list value) :
  toNDRDetails data = Normal d ->
  data_data data "attempt_history" = Normal (VArr history) ->
  length (deliveryAttempts d) = length history /\
  forall (i : nat) (attempt : value),
    history !! i = Some attempt ->
    exists t remarks,
      deliveryAttempts d !! i = Some t /\
      get attempt "date" = Normal (Attempt.date t) /\
      get attempt "time" = Normal (Attempt.time t) /\
      get attempt "status" = Normal (Attempt.status t) /\
      get attempt "reason" = Normal (Attempt.reason t) /\
      get attempt "agent_remarks" = Normal remarks /\
      Attempt.comments t = or_else remarks (VStr "") /\
      (remarks = VUndefined -> Attempt.comments t = VStr "").
Proof.
  intros H Hhist. unfold toNDRDetails in H. invert_reads H. invert_reads Hhist.
  match goal with G : array_map _ _ = Normal _ |- _ => rename G into Hmap end.
  simplify_eq. cbn [array_map] in Hmap.
  apply map_elems_Forall2 in Hmap. cbn [deliveryAttempts]. split.
  - symmetry. eapply Forall2_length, Hmap.
  - intros i attempt Hi.
    destruct (Forall2_lookup_l _ _ _ _ _ Hmap Hi) as (t & Ht & Hcall).
    unfold toDeliveryAttempt in Hcall. invert_reads Hcall.
    do 2 eexists. split; [exact Ht|]. cbn.
    repeat (split; [eassumption || reflexivity|]).
    intros ->. reflexivity.
Qed.

(** Run the transformation on a sample payload and name its result. *)
Ltac run_on payload d E :=
  destruct (toNDRDetails payload) as [d|] eqn:E;
  [exists d; split; [reflexivity|] | vm_compute in E; discriminate E].

Lemma lastAttemptDate_runs :
  (exists d, toNDRDetails payload_no_attempts = Normal d /\
             lastAttemptDate d = VStr "-" /\ deliveryAttempts d = []) /\
  (exists d, toNDRDetails payload_two_attempts = Normal d /\
             lastAttemptDate d = VStr "2024-03-05").
Proof.
  split.
  - run_on payload_no_attempts d E.
    destruct (lastAttemptDate_first_date_or_placeholder _ d E) as [Hempty _].
    apply Hempty. reflexivity.
  - run_on payload_two_attempts d E.
    destruct (lastAttemptDate_first_date_or_placeholder _ d E) as [_ Hfirst].
    exact (Hfirst _ _ (VStr "2024-03-05") eq_refl eq_refl).
Defined.

(** Claim C5 as stated fails where the first attempt carries an empty
    [date]: the history is not empty, yet [lastAttemptDate] is the
    placeholder and not that date. *)
Lemma lastAttemptDate_empty_date_counterexample :
  exists d attempt,
    toNDRDetails payload_undated_attempt = Normal d /\
    data_data payload_undated_attempt "attempt_history" = Normal (VArr [attempt]) /\
    get attempt "date" = Normal (VStr "") /\
    lastAttemptDate d = VStr "-" /\
    lastAttemptDate d <> VStr "".
Proof.
  destruct (toNDRDetails payload_undated_attempt) as [d|] eqn:E;
    [|vm_compute in E; discriminate E].
  exists d. eexists. split; [reflexivity|].
  split; [reflexivity|]. split; [reflexivity|].
  vm_compute in E. injection E as <-.
  split; [reflexivity|discriminate].
Qed.

Lemma defaults_runs :
  (exists d, toNDRDetails payload_no_attempts = Normal d /\
             currentLocation d = {| Location.lat := VNum 0%float; Location.lng := VNum 0%float |} /\
             Customer.country (customerDetails d) = VStr "India" /\
             Customer.address2 (customerDetails d) = VStr "" /\
             Customer.email (customerDetails d) = VStr "") /\
  (exists d, toNDRDetails payload_two_attempts = Normal d /\
             delivery_address payload_two_attempts "country" = Normal (VStr "Nepal") /\
             Customer.country (customerDetails d) = VStr "India").
Proof.
  split.
  - run_on payload_no_attempts d E.
    destruct (defaults_location_country_address2_email _ d E)
      as (Hloc & Hcountry & Hline & Hmail).
    split; [apply Hloc; reflexivity|]. split; [exact Hcountry|].
    split; [apply Hline; reflexivity|apply Hmail; reflexivity].
  - run_on payload_two_attempts d E.
    split; [reflexivity|].
    apply (defaults_location_country_address2_email _ d E).
Defined.

Lemma deliveryAttempts_runs :
  exists d,
    toNDRDetails payload_two_attempts = Normal d /\
    length (deliveryAttempts d) = 2%nat /\
    exists t,
      deliveryAttempts d !! 1%nat = Some t /\
      Attempt.date t = VStr "2024-03-03" /\
      Attempt.comments t = VStr "".
Proof.
  run_on payload_two_attempts d E.
  destruct (deliveryAttempts_follow_attempt_history _ d _ E eq_refl) as [Hlen Hnth].
  split; [exact Hlen|].
  destruct (Hnth 1%nat _ eq_refl) as (t & remarks & Ht & Hdate & _ & _ & _ & Hrem & _ & Hcom).
  exists t. split; [exact Ht|].
  injection Hdate as <-. injection Hrem as <-.
  split; [reflexivity|apply Hcom; reflexivity].
Defined.

End NdrSpec.

(** ** Mock tracking *)

Module TrackingSpec.
Import Js Tracking.

(** *** The pattern [^\d{10}$] *)

Lemma append_empty_r (s : string) : s +:+ "" = s.
Proof.
  induction s as [|c s IH]; [reflexivity|].
  change (String c (s +:+ "") = String c s). rewrite IH. reflexivity.
Qed.

Lemma length_append (s t : string) :
  String.length (s +:+ t) = (String.length s + String.length t)%nat.
Proof.
  induction s as [|c s IH]; [reflexivity|].
  change (S (String.length (s +:+ t)) = S (String.length s + String.length t)).
  rewrite IH. reflexivity.
Qed.

Lemma match_digits_Some (n : nat) (s rest : string) :
  match_digits n s = Some rest <->
  exists ds, s = ds +:+ rest /\ String.length ds = n /\
             Forall (fun c => is_digit c = true) (String.list_ascii_of_string ds).
Proof.
  revert s; induction n as [|n IH]; intros s; cbn.
  - split.
    + intros [= ->]. exists "". auto.
    + intros (ds & -> & Hlen & _). destruct ds; [reflexivity|discriminate].
  - destruct s as [|c s].
    + split; [discriminate|]. intros (ds & Hs & Hlen & _).
      destruct ds; discriminate.
    + destruct (is_digit c) eqn:Hc.
      * rewrite IH. split.
        -- intros (ds & -> & Hlen & Hall). exists (String c ds).
           cbn. rewrite Hlen. auto.
        -- intros (ds & Hs & Hlen & Hall). destruct ds as [|c' ds]; [discriminate|].
           injection Hs as -> ->. injection Hlen as Hlen.
           cbn in Hall. apply Forall_cons in Hall as [_ Hall]. eauto.
      * split; [discriminate|]. intros (ds & Hs & Hlen & Hall).
        destruct ds as [|c' ds]; [discriminate|].
        injection Hs as -> ->. cbn in Hall. apply Forall_cons in Hall as [Hc' _].
        congruence.
Qed.

(** The test accepts exactly the strings of ten decimal digits. *)
Lemma awb_pattern_test_true (s : string) :
  awb_pattern_test s = true <->
  String.length s = 10%nat /\
  Forall (fun c => is_digit c = true) (String.list_ascii_of_string s).
Proof.
  unfold awb_pattern_test.
  destruct (match_digits 10 s) as [rest|] eqn:Hm.
  - apply match_digits_Some in Hm as (ds & -> & Hlen & Hall).
    destruct rest as [|c rest].
    + rewrite append_empty_r. tauto.
    + split; [discriminate|]. intros [Hlen' _]. exfalso.
      rewrite length_append in Hlen'. cbn in Hlen'. lia.
  - split; [discriminate|]. intros [Hlen Hall]. exfalso.
    assert (match_digits 10 s = Some "") as E; [|congruence].
    apply match_digits_Some. exists s. rewrite append_empty_r. auto.
Qed.

Lemma awb_pattern_test_nonempty (s : string) :
  awb_pattern_test s = true -> String.eqb s "" = false.
Proof. destruct s; [discriminate|reflexivity]. Qed.

(** *** Indices drawn from the random source *)

Lemma floor_times_range (r : Q) (n : Z) :
  unit_draw r -> 0 < n -> 0 <= floor_times r n < n.
Proof.
  intros [Hlo Hhi] Hn. unfold floor_times.
  assert (Hpos : (0 < inject_Z n)%Q) by (unfold Qlt; cbn; lia).
  split.
  - apply (Qfloor_resp_le 0 (r * inject_Z n)).
    apply Qmult_le_0_compat; [exact Hlo|]. apply Qlt_le_weak, Hpos.
  - rewrite Zlt_Qlt. eapply Qle_lt_trans; [apply Qfloor_le|].
    rewrite <- (Qmult_1_l (inject_Z n)) at 2.
    apply Qmult_lt_compat_r; [exact Hpos|exact Hhi].
Qed.

Lemma at_index_cities (r : Q) :
  unit_draw r ->
  exists city, at_index cities (floor_times r cities_length) = Some city /\
               cities !! Z.to_nat (floor_times r cities_length) = Some city.
Proof.
  intros Hr. destruct (floor_times_range r cities_length Hr) as [Hlo Hhi]; [reflexivity|].
  unfold at_index. destruct (Z.ltb_spec (floor_times r cities_length) 0); [lia|].
  destruct (lookup_lt_is_Some_2 cities (Z.to_nat (floor_times r cities_length))) as [city Hc].
  { change (length cities) with 10%nat. change cities_length with 10 in Hlo, Hhi |- *. lia. }
  eauto.
Qed.

(** The ten places are pairwise different, as pairs and as rendered. *)
Lemma places_NoDup : NoDup (place <$> cities).
Proof. apply (bool_decide_unpack _). vm_compute. exact I. Qed.

Lemma place_index_inj (i j : nat) (a b : City) :
  cities !! i = Some a -> cities !! j = Some b -> place a = place b -> i = j.
Proof.
  intros Ha Hb Hab.
  apply (NoDup_lookup _ i j (place a) places_NoDup).
  - rewrite list_lookup_fmap, Ha. reflexivity.
  - rewrite list_lookup_fmap, Hb, Hab. reflexivity.
Qed.

(** *** The redraw loop *)

Lemma redraw_accept (originIndex destIndex : Z) (rs : list Q) :
  destIndex <> originIndex ->
  redraw_while_equal originIndex destIndex rs = (Returned destIndex, rs).
Proof.
  intros Hne. destruct rs; cbn; destruct (Z.eqb_spec destIndex originIndex); congruence.
Qed.

Lemma redraw_first_other (originIndex : Z) (retries : list Q) (r1 : Q) (rest : list Q) :
  Forall (fun r => floor_times r cities_length = originIndex) retries ->
  floor_times r1 cities_length <> originIndex ->
  redraw_while_equal originIndex originIndex (retries ++ r1 :: rest)
    = (Returned (floor_times r1 cities_length), rest).
Proof.
  intros Hsame Hother.
  induction Hsame as [|r retries Hr _ IH]; cbn [app redraw_while_equal].
  - rewrite Z.eqb_refl. apply redraw_accept, Hother.
  - rewrite Z.eqb_refl, Hr. exact IH.
Qed.

(** While the random source keeps falling on the origin's index the loop
    does not end: it uses up every reading it is given. *)
Lemma redraw_starves (originIndex : Z) (rs : list Q) :
  Forall (fun r => floor_times r cities_length = originIndex) rs ->
  redraw_while_equal originIndex originIndex rs = (Starved, []).
Proof.
  induction 1 as [|r rs Hr _ IH]; cbn [redraw_while_equal]; rewrite Z.eqb_refl.
  - reflexivity.
  - rewrite Hr. exact IH.
Qed.

(** *** Running the monad *)

Lemma bind_Returned {A B} (c : M A) (k : A -> M B) (w w' : World) (a : A) :
  c w = (Returned a, w') -> (c ≫= k) w = k a w'.
Proof. intros H. unfold mbind, M_bind. rewrite H. reflexivity. Qed.

Lemma Math_random_run (w : World) (r : Q) (rs : list Q) :
  random w = r :: rs -> Math_random w = (Returned r, with_random rs w).
Proof. intros H. unfold Math_random. rewrite H. reflexivity. Qed.

Lemma Date_now_run (w : World) (t : Z) (ts : list Z) :
  clock w = t :: ts -> Date_now w = (Returned t, with_clock ts w).
Proof. intros H. unfold Date_now. rewrite H. reflexivity. Qed.

Lemma draw_destination_run {A} (k : Z -> M A) (originIndex : Z)
    (retries : list Q) (r1 : Q) (tail : list Q) (w : World) :
  Forall (fun r => floor_times r cities_length = originIndex) retries ->
  floor_times r1 cities_length <> originIndex ->
  random w = retries ++ r1 :: tail ->
  (Math_random ≫= fun r =>
     pick_destination originIndex (floor_times r cities_length) ≫= k) w
  = k (floor_times r1 cities_length) (with_random tail w).
Proof.
  intros Hsame Hother Hw.
  destruct Hsame as [|r retries Hr Hsame]; cbn [app] in Hw.
  - rewrite (bind_Returned _ _ _ _ _ (Math_random_run _ _ _ Hw)).
    apply bind_Returned. unfold pick_destination.
    rewrite redraw_accept by exact Hother. reflexivity.
  - rewrite (bind_Returned _ _ _ _ _ (Math_random_run _ _ _ Hw)).
    apply bind_Returned. unfold pick_destination. rewrite Hr.
    cbn [random with_random].
    rewrite redraw_first_other by assumption. reflexivity.
Qed.

Section Locale.

Variable toLocaleString : Z -> string.
Variable toLocaleDateString : Z -> string.

Lemma transit_loop_run (now : Z) (cs : list Q) (visited : list City) :
  Forall2 (fun c city => at_index cities (floor_times c cities_length) = Some city)
    cs visited ->
  forall (i : Z) (evs : list TrackingEvent) (rest : list Q) (w : World),
    random w = cs ++ rest ->
    transit_loop toLocaleString (length cs) i now evs w
    = (Returned (transit_events toLocaleString now i visited ++ evs),
       with_random rest w).
Proof.
  induction 1 as [|c city cs visited Hcity _ IH]; intros i evs rest w Hw.
  - cbn in *. destruct w; cbn in *; subst; reflexivity.
  - cbn [length app transit_loop transit_events] in *.
    unfold getRandomCity.
    rewrite (bind_Returned _ _ w (with_random (cs ++ rest) w)
               (at_index cities (floor_times c cities_length))).
    2:{ rewrite (bind_Returned _ _ _ _ _ (Math_random_run _ _ _ Hw)). reflexivity. }
    rewrite Hcity.
    rewrite (bind_Returned _ _ _ (with_random (cs ++ rest) w) city) by reflexivity.
    rewrite (IH _ _ rest) by reflexivity.
    rewrite <- app_assoc. reflexivity.
Qed.

Lemma visited_cities (cs : list Q) :
  Forall unit_draw cs ->
  exists visited,
    Forall2 (fun c city => at_index cities (floor_times c cities_length) = Some city)
      cs visited.
Proof.
  induction 1 as [|c cs Hc _ [visited IH]].
  - exists []. constructor.
  - destruct (at_index_cities c Hc) as (city & Hcity & _).
    exists (city :: visited). constructor; assumption.
Qed.

(** What [generateRandomTrackingInfo] returns on a fair supply. *)
Lemma generateRandomTrackingInfo_run (awbNumber : string) (w : World) (now : Z) :
  fair_supply w now ->
  exists (o d : City) (visited : list City) (rest : list Q) (later : list Z),
    o ∈ cities /\ d ∈ cities /\ o <> d /\ place o <> place d /\
    (1 <= length visited <= 3)%nat /\
    generateRandomTrackingInfo toLocaleString toLocaleDateString awbNumber w
    = (Returned
         {| awbNumber := awbNumber;
            currentStatus := "In Transit";
            expectedDelivery := toLocaleDateString (now + days 3);
            origin := place o;
            destination := place d;
            courier := "RocketryBox Express";
            events := transit_events toLocaleString now 0 visited
                      ++ [shipped_event toLocaleString o now] |},
       consumed w rest later).
Proof.
  intros (r0 & retries & r1 & rt & cs & rest & later & Hrand & Hclock
          & U0 & U1 & Ut & Ucs & Hsame & Hother & Hlen).
  destruct (at_index_cities r0 U0) as (o & Ho & Ho').
  destruct (at_index_cities r1 U1) as (d & Hd & Hd').
  destruct (visited_cities cs Ucs) as [visited Hvisited].
  destruct (floor_times_range r0 cities_length U0) as [Hr0 _]; [reflexivity|].
  destruct (floor_times_range r1 cities_length U1) as [Hr1 _]; [reflexivity|].
  destruct (floor_times_range rt 3 Ut) as [Hrt Hrt']; [reflexivity|].
  assert (Hplaces : place o <> place d).
  { intros Heq. apply Hother.
    pose proof (place_index_inj _ _ _ _ Ho' Hd' Heq). lia. }
  exists o, d, visited, rest, later.
  split; [eapply list_elem_of_lookup_2, Ho'|].
  split; [eapply list_elem_of_lookup_2, Hd'|].
  split; [congruence|]. split; [exact Hplaces|].
  split; [rewrite <- (Forall2_length _ _ _ Hvisited), Hlen; lia|].
  unfold generateRandomTrackingInfo.
  rewrite (bind_Returned _ _ _ _ _ (Math_random_run _ _ _ Hrand)). cbv beta zeta.
  rewrite (draw_destination_run _ _ retries r1 (rt :: cs ++ rest))
    by (assumption || reflexivity).
  erewrite bind_Returned by (apply Date_now_run; exact Hclock).
  rewrite Ho. erewrite (bind_Returned (deref (Some o))) by reflexivity.
  erewrite bind_Returned by (apply Math_random_run; reflexivity).
  rewrite <- Hlen.
  erewrite bind_Returned by (apply (transit_loop_run now cs visited Hvisited); reflexivity).
  rewrite Hd. erewrite (bind_Returned (deref (Some d))) by reflexivity.
  reflexivity.
Qed.

(** *** [fetchTrackingInfo], path by path *)

Lemma fetchTrackingInfo_invalid (dummy : gmap string TrackingInfo)
    (awbNumber : string) (w : World) :
  awb_pattern_test awbNumber = false ->
  fetchTrackingInfo toLocaleString toLocaleDateString dummy awbNumber w
  = (Thrown invalid_awb, after_rejection w).
Proof.
  intros Htest. unfold fetchTrackingInfo, try_catch.
  erewrite (bind_Returned (sleep 1000)) by reflexivity.
  rewrite Htest, orb_true_r. reflexivity.
Qed.

Lemma fetchTrackingInfo_canned (dummy : gmap string TrackingInfo)
    (awbNumber : string) (info : TrackingInfo) (w : World) :
  awb_pattern_test awbNumber = true ->
  dummy !! awbNumber = Some info ->
  fetchTrackingInfo toLocaleString toLocaleDateString dummy awbNumber w
  = (Returned info, after_wait w).
Proof.
  intros Htest Hlookup. unfold fetchTrackingInfo, try_catch.
  erewrite (bind_Returned (sleep 1000)) by reflexivity.
  rewrite Htest, (awb_pattern_test_nonempty _ Htest), Hlookup. reflexivity.
Qed.

Lemma fetchTrackingInfo_generated (dummy : gmap string TrackingInfo)
    (awbNumber : string) (info : TrackingInfo) (w w' : World) :
  awb_pattern_test awbNumber = true ->
  dummy !! awbNumber = None ->
  generateRandomTrackingInfo toLocaleString toLocaleDateString awbNumber (after_wait w)
    = (Returned info, w') ->
  fetchTrackingInfo toLocaleString toLocaleDateString dummy awbNumber w
  = (Returned info, w').
Proof.
  intros Htest Hlookup Hgen. unfold fetchTrackingInfo, try_catch.
  erewrite (bind_Returned (sleep 1000)) by reflexivity.
  rewrite Htest, (awb_pattern_test_nonempty _ Htest), Hlookup.
  cbn [orb negb]. unfold after_wait in Hgen. rewrite Hgen. reflexivity.
Qed.

Lemma fair_supply_after_wait (w : World) (now : Z) :
  fair_supply w now -> fair_supply (after_wait w) now.
Proof. intros H. exact H. Qed.

(** *** The table built when the module is loaded *)

(** Loading the module takes thirteen readings of the clock, one for each
    [Date.now()] in the table, and every timestamp of the table is a
    rendering of one of them, shifted by its fixed offset. *)
Lemma dummyTrackingData_contents (w w' : World) (dummy : gmap string TrackingInfo) :
  dummyTrackingData toLocaleString toLocaleDateString w = (Returned dummy, w') ->
  exists (d1 a1 b1 c1 d2 a2 b2 c2 e2 d3 a3 b3 c3 : Z) (later : list Z),
    clock w = [d1; a1; b1; c1; d2; a2; b2; c2; e2; d3; a3; b3; c3] ++ later /\
    w' = with_clock later w /\
    dummy !! "1234567890" = Some
      {| awbNumber := "1234567890";
         currentStatus := "In Transit";
         expectedDelivery := toLocaleDateString (d1 + days 2);
         origin := "Mumbai, Maharashtra";
         destination := "Bangalore, Karnataka";
         courier := "RocketryBox Express";
         events :=
           [canned_event toLocaleString "In Transit" "Hyderabad, Telangana" (a1 + - hours 12)
              "Shipment departed from transit facility";
            canned_event toLocaleString "In Transit" "Pune, Maharashtra" (b1 + - hours 24)
              "Shipment arrived at transit facility";
            canned_event toLocaleString "Shipped" "Mumbai, Maharashtra" (c1 + - hours 48)
              "Shipment picked up from sender"] |} /\
    dummy !! "9876543210" = Some
      {| awbNumber := "9876543210";
         currentStatus := "Delivered";
         expectedDelivery := toLocaleDateString (d2 + - days 1);
         origin := "Delhi, Delhi";
         destination := "Jaipur, Rajasthan";
         courier := "RocketryBox Premium";
         events :=
           [canned_event toLocaleString "Delivered" "Jaipur, Rajasthan" (a2 + - hours 6)
              "Package delivered to recipient";
            canned_event toLocaleString "Out for Delivery" "Jaipur, Rajasthan" (b2 + - hours 12)
              "Package is out for delivery";
            canned_event toLocaleString "In Transit" "Gurugram, Haryana" (c2 + - hours 24)
              "Shipment in transit to destination";
            canned_event toLocaleString "Shipped" "Delhi, Delhi" (e2 + - hours 48)
              "Shipment picked up from sender"] |} /\
    dummy !! "5678901234" = Some
      {| awbNumber := "5678901234";
         currentStatus := "Out for Delivery";
         expectedDelivery := toLocaleDateString (d3 + 0);
         origin := "Chennai, Tamil Nadu";
         destination := "Coimbatore, Tamil Nadu";
         courier := "RocketryBox Standard";
         events :=
           [canned_event toLocaleString "Out for Delivery" "Coimbatore, Tamil Nadu" (a3 + - hours 4)
              "Package is out for delivery";
            canned_event toLocaleString "In Transit" "Salem, Tamil Nadu" (b3 + - hours 18)
              "Shipment in transit to destination";
            canned_event toLocaleString "Shipped" "Chennai, Tamil Nadu" (c3 + - hours 36)
              "Shipment picked up from sender"] |} /\
    forall k, k <> "1234567890" -> k <> "9876543210" -> k <> "5678901234" ->
              dummy !! k = None.
Proof.
  intros Hload. destruct w as [rs ts tm co].
  do 13 (destruct ts as [|? ts]; [discriminate Hload|]).
  cbv [dummyTrackingData locale_date_from_now event_from_now locale_string_from_now
       mbind M_bind mret M_ret Date_now with_clock clock random timers console] in Hload.
  injection Hload as <- <-.
  do 14 eexists. split; [reflexivity|]. split; [reflexivity|].
  split; [reflexivity|]. split; [reflexivity|]. split; [reflexivity|].
  intros k H1 H2 H3.
  rewrite !lookup_insert_ne by congruence. apply lookup_empty.
Qed.

Lemma not_canned (w w' : World) (dummy : gmap string TrackingInfo) (awbNumber : string) :
  dummyTrackingData toLocaleString toLocaleDateString w = (Returned dummy, w') ->
  awbNumber ∉ canned_awbs ->
  dummy !! awbNumber = None.
Proof.
  intros Hload Hnot.
  destruct (dummyTrackingData_contents _ _ _ Hload)
    as (? & ? & ? & ? & ? & ? & ? & ? & ? & ? & ? & ? & ? & ? & _ & _ & _ & _ & _ & Hother).
  unfold canned_awbs in Hnot. rewrite !elem_of_cons, elem_of_nil in Hnot.
  apply Hother; intros ->; tauto.
Qed.

(** *** The record synthesized for an unknown identifier *)

Lemma fetchTrackingInfo_synthesized (w_load w_loaded : World)
    (dummy : gmap string TrackingInfo) (awbNumber : string) (w : World) (now : Z) :
  dummyTrackingData toLocaleString toLocaleDateString w_load = (Returned dummy, w_loaded) ->
  awb_pattern_test awbNumber = true ->
  awbNumber ∉ canned_awbs ->
  fair_supply w now ->
  exists (o d : City) (visited : list City) (rest : list Q) (later : list Z),
    o ∈ cities /\ d ∈ cities /\ o <> d /\ place o <> place d /\
    (1 <= length visited <= 3)%nat /\
    fetchTrackingInfo toLocaleString toLocaleDateString dummy awbNumber w
    = (Returned
         {| awbNumber := awbNumber;
            currentStatus := "In Transit";
            expectedDelivery := toLocaleDateString (now + days 3);
            origin := place o;
            destination := place d;
            courier := "RocketryBox Express";
            events := transit_events toLocaleString now 0 visited
                      ++ [shipped_event toLocaleString o now] |},
       consumed (after_wait w) rest later).
Proof.
  intros Hload Htest Hnot Hfair.
  destruct (generateRandomTrackingInfo_run awbNumber (after_wait w) now
              (fair_supply_after_wait _ _ Hfair))
    as (o & d & visited & rest & later & Ho & Hd & Hod & Hplaces & Hlen & Hrun).
  exists o, d, visited, rest, later. repeat (split; [assumption|]).
  eapply fetchTrackingInfo_generated; eauto using not_canned.
Qed.




(** *** The canned records *)

(** Claim C7. Whenever it is called, [fetchTrackingInfo] returns for
    ["1234567890"] the canned record with exactly 3 events and
    [currentStatus] ["In Transit"], and for ["9876543210"] the canned
    record with exactly 4 events and [currentStatus] ["Delivered"]. *)
Theorem canned_records_events_and_status (w_load w_loaded : World)
    (dummy : gmap string TrackingInfo) (w : World) :
  dummyTrackingData toLocaleString toLocaleDateString w_load = (Returned dummy, w_loaded) ->
  (exists info,
     fetchTrackingInfo toLocaleString toLocaleDateString dummy "1234567890" w
       = (Returned info, after_wait w) /\
     dummy !! "1234567890" = Some info /\
     length (events info) = 3%nat /\
     currentStatus info = "In Transit") /\
  (exists info,
     fetchTrackingInfo toLocaleString toLocaleDateString dummy "9876543210" w
       = (Returned info, after_wait w) /\
     dummy !! "9876543210" = Some info /\
     length (events info) = 4%nat /\
     currentStatus info = "Delivered").
Proof.
  intros Hload.
  destruct (dummyTrackingData_contents _ _ _ Hload)
    as (? & ? & ? & ? & ? & ? & ? & ? & ? & ? & ? & ? & ? & ? & _ & _ & H1 & H2 & _).
  split; eexists.
  - split; [apply fetchTrackingInfo_canned; [reflexivity|exact H1]|].
    split; [exact H1|]. split; reflexivity.
  - split; [apply fetchTrackingInfo_canned; [reflexivity|exact H2]|].
    split; [exact H2|]. split; reflexivity.
Qed.

(** Claim C2 (amended). For each of the three canned identifiers,
    [fetchTrackingInfo] returns the record the module built when it was
    loaded: its timestamps render clock readings taken at load time,
    shifted by the record's fixed offsets, and no call reads the clock or
    the random source. Calls made at different times therefore return
    one and the same record, with the same literal timestamp strings. *)
Theorem canned_record_fixed_at_load (w_load w_loaded : World)
    (dummy : gmap string TrackingInfo) (awbNumber : string) :
  dummyTrackingData toLocaleString toLocaleDateString w_load = (Returned dummy, w_loaded) ->
  awbNumber ∈ canned_awbs ->
  exists (info : TrackingInfo) (readings : list Z),
    dummy !! awbNumber = Some info /\
    readings ⊆ clock w_load /\
    timestamp <$> events info
      = zip_with (fun t offset => toLocaleString (t + offset))
          readings (canned_offsets awbNumber) /\
    forall w : World,
      fetchTrackingInfo toLocaleString toLocaleDateString dummy awbNumber w
        = (Returned info, after_wait w) /\
      clock (after_wait w) = clock w /\
      random (after_wait w) = random w.
Proof.
  intros Hload Hin.
  destruct (dummyTrackingData_contents _ _ _ Hload)
    as (d1 & a1 & b1 & c1 & d2 & a2 & b2 & c2 & e2 & d3 & a3 & b3 & c3 & later
        & Hclock & _ & H1 & H2 & H3 & _).
  assert (Hfrom_load : forall readings : list Z,
            readings ⊆ [d1; a1; b1; c1; d2; a2; b2; c2; e2; d3; a3; b3; c3] ->
            readings ⊆ clock w_load).
  { intros readings Hsub t Ht. rewrite Hclock, elem_of_app. left. apply Hsub, Ht. }
  unfold canned_awbs in Hin.
  apply elem_of_cons in Hin as [->|Hin]; [|apply elem_of_cons in Hin as [->|Hin]];
    [| |apply list_elem_of_singleton in Hin as ->]; eexists.
  - exists [a1; b1; c1]. split; [exact H1|].
    split; [apply Hfrom_load; intros t; rewrite !elem_of_cons, elem_of_nil; tauto|].
    split; [reflexivity|].
    intros w. split; [apply fetchTrackingInfo_canned; [reflexivity|exact H1]|].
    split; reflexivity.
  - exists [a2; b2; c2; e2]. split; [exact H2|].
    split; [apply Hfrom_load; intros t; rewrite !elem_of_cons, elem_of_nil; tauto|].
    split; [reflexivity|].
    intros w. split; [apply fetchTrackingInfo_canned; [reflexivity|exact H2]|].
    split; reflexivity.
  - exists [a3; b3; c3]. split; [exact H3|].
    split; [apply Hfrom_load; intros t; rewrite !elem_of_cons, elem_of_nil; tauto|].
    split; [reflexivity|].
    intros w. split; [apply fetchTrackingInfo_canned; [reflexivity|exact H3]|].
    split; reflexivity.
Qed.

(** *** Rejected identifiers *)

(** Claim C3. For every input the pattern [^\d{10}$] does not match, the
    empty string included, [fetchTrackingInfo] throws the invalid-number
    error: whatever the table holds (no record is looked up), with no
    reading of the clock or of the random source taken (no timestamp is
    generated); the module has no network effect on any path. The world is
    left with the wait and the logged error only. *)
Theorem invalid_awb_rejected (dummy : gmap string TrackingInfo)
    (awbNumber : string) (w : World) :
  awb_pattern_test awbNumber = false ->
  fetchTrackingInfo toLocaleString toLocaleDateString dummy awbNumber w
    = (Thrown (Error "Invalid AWB number. Please provide a 10-digit AWB number."),
       after_rejection w) /\
  clock (after_rejection w) = clock w /\
  random (after_rejection w) = random w /\
  forall dummy' : gmap string TrackingInfo,
    fetchTrackingInfo toLocaleString toLocaleDateString dummy' awbNumber w
    = fetchTrackingInfo toLocaleString toLocaleDateString dummy awbNumber w.
Proof.
  intros Htest. split; [apply fetchTrackingInfo_invalid, Htest|].
  split; [reflexivity|]. split; [reflexivity|].
  intros dummy'. rewrite !fetchTrackingInfo_invalid by exact Htest. reflexivity.
Qed.

End Locale.

(** *** Runs on sample inputs *)

Lemma load_world_loads :
  dummyTrackingData plain plain load_world
  = (Returned loaded_table, with_clock [] load_world).
Proof. vm_compute. reflexivity. Qed.

Lemma unknown_awb_valid :
  awb_pattern_test "1111111111" = true /\ "1111111111" ∉ canned_awbs.
Proof.
  split; [reflexivity|].
  unfold canned_awbs. rewrite !elem_of_cons, elem_of_nil.
  intros [H|[H|[H|[]]]]; discriminate H.
Qed.

Lemma call_world_fair (now : Z) : fair_supply (call_world now) now.
Proof.
  exists (3 # 10)%Q, [3 # 10; 35 # 100]%Q, (7 # 10)%Q, (1 # 2)%Q,
         [0 # 1; 99 # 100]%Q, [1 # 4]%Q, [].
  assert (Hunit : forall a b : positive, (a < b)%positive -> unit_draw (Z.pos a # b)).
  { intros a b Hab. split; unfold Qle, Qlt; cbn; lia. }
  split; [reflexivity|]. split; [reflexivity|].
  split; [apply Hunit; lia|]. split; [apply Hunit; lia|]. split; [apply Hunit; lia|].
  split.
  { repeat constructor; try (apply Hunit; lia); unfold Qle, Qlt; cbn; lia. }
  split; [repeat constructor|]. split; [discriminate|reflexivity].
Qed.




Lemma canned_records_events_and_status_run :
  (exists info,
     fetchTrackingInfo plain plain loaded_table "1234567890" (call_world 1700000100000)
       = (Returned info, after_wait (call_world 1700000100000)) /\
     length (events info) = 3%nat /\ currentStatus info = "In Transit") /\
  (exists info,
     fetchTrackingInfo plain plain loaded_table "9876543210" (call_world 1700000100000)
       = (Returned info, after_wait (call_world 1700000100000)) /\
     length (events info) = 4%nat /\ currentStatus info = "Delivered").
Proof.
  destruct (canned_records_events_and_status plain plain load_world _ loaded_table
              (call_world 1700000100000) load_world_loads)
    as [(i1 & Hrun1 & _ & Hlen1 & Hst1) (i2 & Hrun2 & _ & Hlen2 & Hst2)].
  split; [exists i1|exists i2]; repeat split; assumption.
Defined.

Lemma canned_record_fixed_at_load_run :
  exists info : TrackingInfo,
    loaded_table !! "9876543210" = Some info /\
    fetchTrackingInfo plain plain loaded_table "9876543210" (call_world 1700000100000)
      = (Returned info, after_wait (call_world 1700000100000)) /\
    fetchTrackingInfo plain plain loaded_table "9876543210" (call_world 1700090000000)
      = (Returned info, after_wait (call_world 1700090000000)).
Proof.
  assert (Hin : "9876543210" ∈ canned_awbs).
  { unfold canned_awbs. rewrite !elem_of_cons. auto. }
  destruct (canned_record_fixed_at_load plain plain load_world _ loaded_table
              "9876543210" load_world_loads Hin)
    as (info & readings & Hlookup & _ & _ & Hcalls).
  exists info. split; [exact Hlookup|].
  split; apply Hcalls.
Defined.

(** Claim C2 as stated fails: two calls for ["1234567890"], made at
    different times, return the same literal timestamp strings, which
    render the instants of loading ([load_world]) and not of either call. *)
Lemma canned_timestamps_same_across_calls :
  exists info1 info2 : TrackingInfo,
    fst (fetchTrackingInfo plain plain loaded_table "1234567890" (call_world 1700000100000))
      = Returned info1 /\
    fst (fetchTrackingInfo plain plain loaded_table "1234567890" (call_world 1700090000000))
      = Returned info2 /\
    clock (call_world 1700000100000) <> clock (call_world 1700090000000) /\
    timestamp <$> events info1 = timestamp <$> events info2 /\
    timestamp <$> events info1
      = [plain (1700000000000 - hours 12); plain (1700000000001 - hours 24);
         plain (1700000000001 - hours 48)] /\
    plain (1700000000001 - hours 48) <> plain (1700000100000 - hours 48) /\
    plain (1700000000001 - hours 48) <> plain (1700090000000 - hours 48).
Proof.
  destruct (fetchTrackingInfo plain plain loaded_table "1234567890"
              (call_world 1700000100000)) as [[info1| |] w1] eqn:E1;
    try (vm_compute in E1; discriminate E1).
  destruct (fetchTrackingInfo plain plain loaded_table "1234567890"
              (call_world 1700090000000)) as [[info2| |] w2] eqn:E2;
    try (vm_compute in E2; discriminate E2).
  exists info1, info2. split; [reflexivity|]. split; [reflexivity|].
  vm_compute in E1. vm_compute in E2.
  injection E1 as <- _. injection E2 as <- _.
  split; [discriminate|]. split; [reflexivity|].
  split; [vm_compute; reflexivity|].
  split; vm_compute; discriminate.
Qed.

Lemma invalid_awb_rejected_run :
  fst (fetchTrackingInfo plain plain loaded_table "" (call_world 1700000100000))
    = Thrown (Error "Invalid AWB number. Please provide a 10-digit AWB number.") /\
  fst (fetchTrackingInfo plain plain loaded_table "123456789a" (call_world 1700000100000))
    = Thrown (Error "Invalid AWB number. Please provide a 10-digit AWB number.") /\
  clock (snd (fetchTrackingInfo plain plain loaded_table "12345678901"
                (call_world 1700000100000)))
    = [1700000100000].
Proof.
  split; [|split].
  - rewrite (proj1 (invalid_awb_rejected plain plain loaded_table ""
                      (call_world 1700000100000) eq_refl)).
    reflexivity.
  - rewrite (proj1 (invalid_awb_rejected plain plain loaded_table "123456789a"
                      (call_world 1700000100000) eq_refl)).
    reflexivity.
  - rewrite (proj1 (invalid_awb_rejected plain plain loaded_table "12345678901"
                      (call_world 1700000100000) eq_refl)).
    reflexivity.
Defined.

End TrackingSpec.

(** * Further properties *)

(** ** The interceptors together *)

Module ApiSessionSpec.
Import Js ApiClient ApiSession.

Lemma request_onFulfilled_no_token (config : RequestConfig) (b : Browser) :
  getItem "auth_token" b = None \/ getItem "auth_token" b = Some "" ->
  request_onFulfilled config b = config.
Proof. unfold request_onFulfilled. intros [-> | ->]; reflexivity. Qed.

Lemma response_onRejected_401_state (error : AxiosError) (b : Browser) :
  unauthorized error ->
  snd (response_onRejected error b)
  = set_location_href "/login" (removeItem "auth_token" b).
Proof.
  intros H. unfold response_onRejected. cbn [snd].
  rewrite bool_decide_eq_true_2 by exact H. reflexivity.
Qed.

Lemma response_onRejected_other_state (error : AxiosError) (b : Browser) :
  ~ unauthorized error -> snd (response_onRejected error b) = b.
Proof.
  intros H. unfold response_onRejected. cbn [snd].
  rewrite bool_decide_eq_false_2 by exact H. reflexivity.
Qed.

(** Extra X1. The request interceptor adds [Authorization: Bearer <token>]
    exactly when a non-empty token is stored; it keeps the URL and every
    other header; with no token, or an empty one, it returns the
    configuration untouched, an [Authorization] header it already carries
    included. *)
Theorem request_interceptor_attaches_stored_token
    (config : RequestConfig) (b : Browser) :
  (forall token,
     getItem "auth_token" b = Some token -> token <> "" ->
     headers (request_onFulfilled config b) !! "Authorization"
       = Some ("Bearer " +:+ token)) /\
  (getItem "auth_token" b = None \/ getItem "auth_token" b = Some "" ->
     request_onFulfilled config b = config) /\
  url (request_onFulfilled config b) = url config /\
  (forall h, h <> "Authorization" ->
     headers (request_onFulfilled config b) !! h = headers config !! h).
Proof.
  split; [|split; [apply request_onFulfilled_no_token|]].
  - intros token Htoken Hne. unfold request_onFulfilled. rewrite Htoken.
    destruct (String.eqb_spec token ""); [congruence|].
    cbn. apply lookup_insert_eq.
  - unfold request_onFulfilled.
    destruct (getItem "auth_token" b) as [token|]; [|auto].
    destruct (String.eqb token ""); [auto|]. cbn. split; [reflexivity|].
    intros h Hh. apply lookup_insert_ne. congruence.
Qed.

Lemma request_interceptor_runs :
  headers (request_onFulfilled bare_request signed_in) !! "Authorization"
    = Some "Bearer t0k3n" /\
  headers (request_onFulfilled bare_request signed_in) !! "Content-Type"
    = Some "application/json" /\
  request_onFulfilled bare_request (removeItem "auth_token" signed_in) = bare_request.
Proof.
  destruct (request_interceptor_attaches_stored_token bare_request signed_in)
    as (Hattach & _ & _ & Hkeep).
  split; [exact (Hattach "t0k3n" eq_refl ltac:(discriminate))|].
  split; [rewrite Hkeep by discriminate; reflexivity|].
  apply (request_interceptor_attaches_stored_token bare_request
           (removeItem "auth_token" signed_in)).
  left. reflexivity.
Defined.

(** Extra X2. Once a 401 has been handled, the request interceptor adds
    no credential any more: it returns every configuration as it got it.
    After any other rejection it behaves as before the rejection. *)
Theorem no_token_attached_after_401
    (error : AxiosError) (config : RequestConfig) (b : Browser) :
  (unauthorized error ->
     request_onFulfilled config (snd (response_onRejected error b)) = config) /\
  (~ unauthorized error ->
     request_onFulfilled config (snd (response_onRejected error b))
     = request_onFulfilled config b).
Proof.
  split; intros H.
  - rewrite response_onRejected_401_state by exact H.
    apply request_onFulfilled_no_token. left.
    unfold getItem, set_location_href, removeItem. cbn. apply lookup_delete_eq.
  - rewrite response_onRejected_other_state by exact H. reflexivity.
Qed.

Lemma no_token_attached_after_401_runs :
  request_onFulfilled bare_request
    (snd (response_onRejected (error_with_status 401) signed_in)) = bare_request /\
  headers (request_onFulfilled bare_request
             (snd (response_onRejected (error_with_status 503) signed_in)))
    !! "Authorization" = Some "Bearer t0k3n".
Proof.
  split.
  - apply (no_token_attached_after_401 (error_with_status 401) bare_request signed_in).
    reflexivity.
  - rewrite (proj2 (no_token_attached_after_401 (error_with_status 503)
                      bare_request signed_in)) by discriminate.
    reflexivity.
Defined.

Lemma handle_all_after_login (errors : list AxiosError) (b : Browser) :
  getItem "auth_token" b = None -> location_href b = "/login" ->
  handle_all errors b = b.
Proof.
  revert b. induction errors as [|error errors IH]; intros b Htoken Hhref;
    [reflexivity|].
  unfold handle_all; cbn [foldl]. fold (handle_all errors).
  assert (snd (response_onRejected error b) = b) as ->; [|apply IH; assumption].
  destruct (decide (unauthorized error)) as [H|H].
  - rewrite response_onRejected_401_state by exact H.
    destruct b as [storage href]. unfold getItem in Htoken. cbn in *.
    unfold set_location_href, removeItem; cbn.
    rewrite delete_id by exact Htoken. congruence.
  - apply response_onRejected_other_state, H.
Qed.

(** Extra X3. Over any sequence of rejections: if none is a 401 the
    browser state is untouched; from the first 401 on, the credential is
    gone, the location is the login route, and nothing that follows changes
    the state again (handling a 401 twice is the same as handling it once). *)
Theorem rejections_in_sequence (errors : list AxiosError) (b : Browser) :
  (Forall (fun error => ~ unauthorized error) errors -> handle_all errors b = b) /\
  (forall before error after,
     errors = before ++ error :: after ->
     Forall (fun e => ~ unauthorized e) before ->
     unauthorized error ->
     handle_all errors b = set_location_href "/login" (removeItem "auth_token" b)).
Proof.
  assert (Hquiet : forall es b0, Forall (fun e => ~ unauthorized e) es ->
                                 handle_all es b0 = b0).
  { induction es as [|e es IH]; intros b0 Hall; [reflexivity|].
    apply Forall_cons in Hall as [He Hes].
    unfold handle_all; cbn [foldl]. fold (handle_all es).
    rewrite response_onRejected_other_state by exact He. apply IH, Hes. }
  split; [apply Hquiet|].
  intros before error after -> Hbefore Herror.
  unfold handle_all. rewrite foldl_app. fold (handle_all before b).
  rewrite Hquiet by exact Hbefore. cbn [foldl]. fold (handle_all after).
  rewrite response_onRejected_401_state by exact Herror.
  apply handle_all_after_login; [|reflexivity].
  unfold getItem, set_location_href, removeItem. cbn. apply lookup_delete_eq.
Qed.

Lemma rejections_in_sequence_runs :
  handle_all [error_with_status 500; network_down] signed_in = signed_in /\
  handle_all [network_down; error_with_status 401; error_with_status 401;
              error_with_status 500] signed_in
  = set_location_href "/login" (removeItem "auth_token" signed_in).
Proof.
  split.
  - apply (rejections_in_sequence [error_with_status 500; network_down] signed_in).
    repeat constructor; discriminate.
  - apply (proj2 (rejections_in_sequence _ signed_in) [network_down]
             (error_with_status 401) [error_with_status 401; error_with_status 500]).
    + reflexivity.
    + repeat constructor; discriminate.
    + reflexivity.
Defined.

End ApiSessionSpec.

(** ** The NDR transformation: failure, field mapping, defaults *)

Module NdrMappingSpec.
Import Js Ndr NdrSpec NdrSamples.

Lemma only_bind {A B} (c : completion A) (f : A -> completion B) :
  throws_only_TypeError c ->
  (forall a, throws_only_TypeError (f a)) ->
  throws_only_TypeError (c ≫= f).
Proof.
  intros Hc Hf e. destruct c as [a|e']; cbn.
  - apply Hf.
  - intros [= <-]. apply Hc. reflexivity.
Qed.

Lemma only_mret {A} (a : A) : throws_only_TypeError (mret a : completion A).
Proof. intros e. discriminate. Qed.

Lemma only_get (v : value) (k : string) : throws_only_TypeError (get v k).
Proof. intros e. destruct v; cbn; congruence. Qed.

Lemma only_get_opt (v : value) (k : string) : throws_only_TypeError (get_opt v k).
Proof. intros e. destruct v; cbn; congruence. Qed.

Lemma only_get_index0 (v : value) : throws_only_TypeError (get_index0 v).
Proof. intros e. destruct v as [| | | |[|c s]| |]; cbn; congruence. Qed.

Lemma only_toDeliveryAttempt (a : value) : throws_only_TypeError (toDeliveryAttempt a).
Proof.
  unfold toDeliveryAttempt.
  repeat (apply only_bind; [apply only_get|intros ?]). apply only_mret.
Qed.

Lemma only_array_map (v : value) :
  throws_only_TypeError (array_map v toDeliveryAttempt).
Proof.
  intros e. destruct v; cbn; try congruence.
  induction elems as [|a elems IH]; cbn; [discriminate|].
  destruct (toDeliveryAttempt a) as [t|e'] eqn:Ha.
  - destruct (map_elems toDeliveryAttempt elems); [discriminate|].
    intros [= <-]. apply IH. reflexivity.
  - intros [= <-]. eapply only_toDeliveryAttempt, Ha.
Qed.

Lemma only_toNDRDetails (data : value) : throws_only_TypeError (toNDRDetails data).
Proof.
  unfold toNDRDetails, delivery_address, data_data.
  repeat first
    [ apply only_mret
    | apply only_get | apply only_get_opt | apply only_get_index0
    | apply only_array_map
    | apply only_bind; [|intros ?] ].
Qed.

(** Extra X4. The transformation fails in one way only, with a
    [TypeError], and it does so exactly for the payloads that lack a
    present [data], an array [data.attempt_history] whose elements are all
    present, or a present [data.delivery_address]. Every other field may be
    missing without an error. *)
Theorem toNDRDetails_fails_exactly_on_missing_structure (data : value) :
  (forall e, toNDRDetails data = Throw e -> e = TypeError) /\
  (toNDRDetails data = Throw TypeError <->
   ~ exists inner history address,
       get data "data" = Normal inner /\
       get inner "attempt_history" = Normal (VArr history) /\
       Forall present history /\
       get inner "delivery_address" = Normal address /\
       present address).
Proof.
  split; [apply only_toNDRDetails|].
  rewrite <- toNDRDetails_defined.
  destruct (toNDRDetails data) as [d|e] eqn:E.
  - split; [discriminate|]. intros H. exfalso. apply H. eauto.
  - rewrite (only_toNDRDetails data e E).
    split; [|reflexivity]. intros _ [d Hd]. discriminate Hd.
Qed.

(** Extra X5. For a payload the transformation accepts, the simple fields
    are copied as they are, under their new names: [order_id] to
    [orderNo], [order_date] to [orderDate], [courier_name] to [courier],
    [customer_name] to [customer], [ndr_reason] to [reason],
    [recommended_action] to [action], [fullName] to [name],
    [addressLine1] to [address1], [contactNumber] to [phone]; a missing one
    is copied as [undefined]. [products] is the payload's value when that is
    truthy (any array, the empty one included) and the empty array
    otherwise. *)
Theorem fields_copied_under_new_names (data : value) (d : NDRDetails) :
  toNDRDetails data = Normal d ->
  data_data data "awb" = Normal (awb d) /\
  data_data data "order_id" = Normal (orderNo d) /\
  data_data data "order_date" = Normal (orderDate d) /\
  data_data data "courier_name" = Normal (courier d) /\
  data_data data "customer_name" = Normal (customer d) /\
  data_data data "attempts" = Normal (attempts d) /\
  data_data data "status" = Normal (status d) /\
  data_data data "ndr_reason" = Normal (reason d) /\
  data_data data "recommended_action" = Normal (action d) /\
  delivery_address data "fullName" = Normal (Customer.name (customerDetails d)) /\
  delivery_address data "addressLine1" = Normal (Customer.address1 (customerDetails d)) /\
  delivery_address data "city" = Normal (Customer.city (customerDetails d)) /\
  delivery_address data "state" = Normal (Customer.state (customerDetails d)) /\
  delivery_address data "pincode" = Normal (Customer.pincode (customerDetails d)) /\
  delivery_address data "contactNumber" = Normal (Customer.phone (customerDetails d)) /\
  exists listed,
    data_data data "products" = Normal listed /\
    products d = if truthy listed then listed else VArr [].
Proof.
  intros H. unfold toNDRDetails in H. invert_reads H.
  unfold delivery_address, data_data.
  match goal with G : get data "data" = Normal _ |- _ => rewrite G end.
  cbn [mbind completion_bind].
  match goal with G : get _ "delivery_address" = Normal _ |- _ => rewrite G end.
  cbn [mbind completion_bind awb orderNo orderDate courier customer attempts status
       reason action customerDetails products Customer.name Customer.address1
       Customer.city Customer.state Customer.pincode Customer.phone].
  repeat (split; [assumption|]).
  eexists. split; [eassumption|reflexivity].
Qed.

Lemma fields_copied_runs :
  exists d,
    toNDRDetails payload_partial_location = Normal d /\
    orderNo d = VStr "ORD-1042" /\
    Customer.phone (customerDetails d) = VStr "9000000000" /\
    products d = VArr [VObj [("name", VStr "Kettle"); ("quantity", VNum 1%float)]].
Proof.
  run_on payload_partial_location d E.
  destruct (fields_copied_under_new_names _ d E)
    as (_ & Hno & _ & _ & _ & _ & _ & _ & _ & _ & _ & _ & _ & _ & Hphone
        & listed & Hlisted & Hproducts).
  injection Hno as <-. injection Hphone as <-. injection Hlisted as <-.
  repeat split; [exact Hproducts].
Defined.

(** Extra X6. For a payload the transformation accepts, the two
    coordinates are defaulted one by one: each is the payload's value when
    that is truthy and [0] otherwise, so a location carrying only [lat]
    keeps it and gets [lng] 0; a [null] location gives [{lat: 0, lng: 0}]
    like a missing one. *)
Theorem coordinates_defaulted_one_by_one (data : value) (d : NDRDetails) (location : value) :
  toNDRDetails data = Normal d ->
  data_data data "current_location" = Normal location ->
  (location = VNull ->
     currentLocation d
     = {| Location.lat := VNum 0%float; Location.lng := VNum 0%float |}) /\
  (forall lat lng,
     get_opt location "lat" = Normal lat ->
     get_opt location "lng" = Normal lng ->
     currentLocation d
     = {| Location.lat := if truthy lat then lat else VNum 0%float;
          Location.lng := if truthy lng then lng else VNum 0%float |}).
Proof.
  intros H Hloc. unfold data_data in Hloc.
  apply bind_Normal_inv in Hloc as (inner & Hinner & Hloc).
  unfold toNDRDetails in H. invert_reads H.
  cbn [currentLocation]. split.
  - intros ->. simplify_eq/=. reflexivity.
  - intros lat lng Hlat Hlng.
    repeat match goal with
           | G1 : ?c = Normal ?a, G2 : ?c = Normal ?b |- _ =>
               assert (b = a) by congruence; subst b; clear G2
           end.
    reflexivity.
Qed.

Lemma coordinates_runs :
  (exists d,
     toNDRDetails payload_partial_location = Normal d /\
     currentLocation d
     = {| Location.lat := VNum 18.5%float; Location.lng := VNum 0%float |}) /\
  (exists d,
     toNDRDetails payload_null_location = Normal d /\
     currentLocation d
     = {| Location.lat := VNum 0%float; Location.lng := VNum 0%float |}).
Proof.
  split.
  - run_on payload_partial_location d E.
    destruct (coordinates_defaulted_one_by_one _ d _ E eq_refl) as [_ Hboth].
    exact (Hboth _ _ eq_refl eq_refl).
  - run_on payload_null_location d E.
    destruct (coordinates_defaulted_one_by_one _ d _ E eq_refl) as [Hnull _].
    exact (Hnull eq_refl).
Defined.

(** Extra X7. In every view model the transformation produces,
    [lastAttemptDate] agrees with [deliveryAttempts]: it is the [date] of
    the first delivery attempt when there is one with a truthy date, and
    the placeholder ["-"] otherwise. *)
Theorem lastAttemptDate_agrees_with_deliveryAttempts (data : value) (d : NDRDetails) :
  toNDRDetails data = Normal d ->
  lastAttemptDate d
  = match deliveryAttempts d with
    | [] => VStr "-"
    | t :: _ => if truthy (Attempt.date t) then Attempt.date t else VStr "-"
    end.
Proof.
  intros H. unfold toNDRDetails in H. invert_reads H.
  cbn [lastAttemptDate deliveryAttempts].
  match goal with G : array_map ?h _ = Normal _ |- _ =>
    destruct h; try discriminate; rename G into Hmap end.
  cbn [array_map] in Hmap. apply map_elems_Forall2 in Hmap.
  destruct Hmap as [|a t history ts Ha _].
  - simplify_eq/=. reflexivity.
  - unfold toDeliveryAttempt in Ha. invert_reads Ha. cbn [Attempt.date].
    match goal with
    | G : get_index0 _ = Normal ?x |- _ => cbn in G; injection G as <-
    end.
    match goal with
    | G : get_opt a "date" = Normal ?x, G' : get a "date" = Normal ?y |- _ =>
        assert (x = y) as -> by (destruct a; cbn in *; congruence)
    end.
    reflexivity.
Qed.

Lemma lastAttemptDate_agrees_runs :
  (exists d t rest,
     toNDRDetails payload_two_attempts = Normal d /\
     deliveryAttempts d = t :: rest /\ lastAttemptDate d = Attempt.date t) /\
  (exists d t,
     toNDRDetails payload_undated_attempt = Normal d /\
     deliveryAttempts d = [t] /\ Attempt.date t = VStr "" /\
     lastAttemptDate d = VStr "-").
Proof.
  split.
  - destruct (toNDRDetails payload_two_attempts) as [d|] eqn:E;
      [|vm_compute in E; discriminate E].
    pose proof (lastAttemptDate_agrees_with_deliveryAttempts _ d E) as Hlast.
    vm_compute in E. injection E as <-.
    do 3 eexists. split; [reflexivity|]. split; [reflexivity|exact Hlast].
  - destruct (toNDRDetails payload_undated_attempt) as [d|] eqn:E;
      [|vm_compute in E; discriminate E].
    pose proof (lastAttemptDate_agrees_with_deliveryAttempts _ d E) as Hlast.
    vm_compute in E. injection E as <-.
    do 2 eexists. split; [reflexivity|]. split; [reflexivity|].
    split; [reflexivity|exact Hlast].
Defined.

End NdrMappingSpec.

(** ** The NDR details page *)

Module NdrPageSpec.
Import Js Ndr NdrPage.

Section Page.

Variable VITE_API_URL : string.

Lemma fetchNDRDetails_present (id token : string) (a : answer) (p : PageState * Effects) :
  id <> "" ->
  fetchNDRDetails VITE_API_URL (Some id) token a p
  = settle_fetch a (begin_fetch VITE_API_URL id token p).
Proof.
  intros Hid. unfold fetchNDRDetails, missing.
  destruct (String.eqb_spec id ""); [contradiction|reflexivity].
Qed.

Lemma settle_fetch_failed (e : exn) (id token : string) (a : answer)
    (p : PageState * Effects) :
  received a = Throw e ->
  failed_with VITE_API_URL e id token p (settle_fetch a (begin_fetch VITE_API_URL id token p)).
Proof.
  intros Hrec. destruct p as [st fx]. unfold settle_fetch, begin_fetch.
  rewrite Hrec. repeat split.
Qed.

(** Extra X8. Without a route parameter ([undefined] or empty) the call
    does nothing at all: no request, no state change. The page is created
    loading, so it goes on rendering the spinner. *)
Theorem no_id_no_fetch (id : option string) (token : string) (a : answer)
    (p : PageState * Effects) :
  missing id = true ->
  fetchNDRDetails VITE_API_URL id token a p = p /\
  render (fst (fetchNDRDetails VITE_API_URL id token a (initial, snd p))) = Spinner.
Proof.
  intros Hid. unfold fetchNDRDetails. destruct id as [text|]; rewrite ?Hid; auto.
Qed.


(** Extra X10. With a route parameter, every other way the request can
    end is a failed load: [fetch] rejecting with [e] fails with [e]; a
    response that is not [ok] fails with the fixed message, its body never
    read; a body that does not parse fails with the parser's error; a
    payload the transformation rejects fails with a [TypeError]. A failed
    load keeps the details of before, sets the error to the message, and
    adds exactly one request, one error notification and one log entry;
    loading is over in every case. *)
Theorem failed_load (id token : string) (a : answer) (p : PageState * Effects) :
  id <> "" ->
  let p' := fetchNDRDetails VITE_API_URL (Some id) token a p in
  loading (fst p') = false /\
  match a with
  | Unreachable e => failed_with VITE_API_URL e id token p p'
  | Answered false _ => failed_with VITE_API_URL (Error "Failed to fetch NDR details") id token p p'
  | Answered true (Throw e) => failed_with VITE_API_URL e id token p p'
  | Answered true (Normal data) =>
      (forall e, toNDRDetails data = Throw e ->
                 e = TypeError /\ failed_with VITE_API_URL TypeError id token p p') /\
      (forall d, toNDRDetails data = Normal d -> error (fst p') = None)
  end.
Proof.
  intros Hid p'. subst p'. rewrite fetchNDRDetails_present by exact Hid.
  split.
  - destruct p as [st fx]. unfold settle_fetch, begin_fetch.
    destruct (received a); reflexivity.
  - destruct a as [e|[|] [data|e]]; try (apply settle_fetch_failed; reflexivity).
    split.
    + intros e He.
      assert (e = TypeError) as -> by (eapply NdrMappingSpec.only_toNDRDetails, He).
      split; [reflexivity|]. apply settle_fetch_failed. exact He.
    + intros d Hd. destruct p as [st fx]. unfold settle_fetch, begin_fetch, received.
      cbn [negb mbind completion_bind]. rewrite Hd. reflexivity.
Qed.



End Page.

(** Extra X13. Submitting the action form contacts no server. The first
    submission logs the selected action with the comments as typed, and
    empties the comments; each further submission made without typing
    again logs the same action with empty comments. Every submission adds
    one success notification and leaves the form not submitting, with its
    selected action in place. *)
Theorem repeated_submissions (more : nat) (f : Form) (fx : Effects) :
  let p' := Nat.iter (S more) handleSubmitAction (f, fx) in
  fst p' = {| selectedAction := selectedAction f; comments := "";
              isSubmitting := false |} /\
  requests (snd p') = requests fx /\
  errors_logged (snd p') = errors_logged fx /\
  actions_logged (snd p')
  = actions_logged fx ++ (selectedAction f, comments f)
                         :: replicate more (selectedAction f, "") /\
  toasts (snd p')
  = toasts fx ++ replicate (S more) (ToastSuccess "Action submitted successfully!").
Proof.
  induction more as [|more IH].
  - cbn. repeat split.
  - cbn zeta in IH |- *. rewrite Nat.iter_succ.
    destruct (Nat.iter (S more) handleSubmitAction (f, fx)) as [f' fx'].
    cbn [fst snd] in IH. destruct IH as (-> & Hreq & Herr & Hlog & Htoast).
    unfold handleSubmitAction, settle_submit, begin_submit.
    cbn [fst snd selectedAction comments requests errors_logged actions_logged toasts].
    rewrite Hlog, Htoast. split; [reflexivity|]. split; [exact Hreq|].
    split; [exact Herr|]. split.
    + rewrite <- app_assoc. f_equal. cbn [app]. f_equal.
      symmetry. apply replicate_S_end.
    + rewrite <- app_assoc. f_equal. symmetry. apply replicate_S_end.
Qed.

(** *** Runs on sample inputs *)

Lemma no_id_no_fetch_runs :
  fetchNDRDetails "https://api.example.test" (Some "") "tok" unparsable sample_state
    = sample_state /\
  fetchNDRDetails "https://api.example.test" None "tok" unparsable sample_state
    = sample_state.
Proof.
  split.
  - apply (no_id_no_fetch "https://api.example.test" (Some "") "tok" unparsable
             sample_state eq_refl).
  - apply (no_id_no_fetch "https://api.example.test" None "tok" unparsable
             sample_state eq_refl).
Defined.


Lemma failed_load_runs :
  error (fst (fetchNDRDetails "https://api.example.test" (Some "42") "tok"
                (Answered false (Normal payload_two_attempts)) sample_state))
    = Some (Message "Failed to fetch NDR details") /\
  error (fst (fetchNDRDetails "https://api.example.test" (Some "42") "tok"
                (Answered true (Normal VNull)) sample_state))
    = Some EngineMessage /\
  loading (fst (fetchNDRDetails "https://api.example.test" (Some "42") "tok"
                  unparsable sample_state))
    = false.
Proof.
  split; [|split].
  - destruct (failed_load "https://api.example.test" "42" "tok"
                (Answered false (Normal payload_two_attempts)) sample_state
                ltac:(discriminate)) as [_ (Hst & _)].
    rewrite Hst. reflexivity.
  - destruct (failed_load "https://api.example.test" "42" "tok"
                (Answered true (Normal VNull)) sample_state
                ltac:(discriminate)) as [_ [Hthrow _]].
    destruct (Hthrow TypeError eq_refl) as [_ (Hst & _)].
    rewrite Hst. reflexivity.
  - apply (failed_load "https://api.example.test" "42" "tok" unparsable sample_state).
    discriminate.
Defined.


End NdrPageSpec.

(** ** Mock tracking: effects, failures, and what every result satisfies *)

Module TrackingContractsSpec.
Import Js Tracking TrackingSpec TrackingContracts.

Lemma advances_refl (w : World) : advances w w.
Proof. repeat split; reflexivity. Qed.

Lemma advances_trans (w1 w2 w3 : World) :
  advances w1 w2 -> advances w2 w3 -> advances w1 w3.
Proof.
  intros (Ht & Hc & Hr & Hk) (Ht' & Hc' & Hr' & Hk').
  repeat split; try congruence; etrans; eassumption.
Qed.

Lemma Forall_suffix_of {A} (P : A -> Prop) (l l' : list A) :
  Forall P l -> l' `suffix_of` l -> Forall P l'.
Proof. intros H [k ->]. apply Forall_app in H. apply H. Qed.

Section Contract.

Variable U : Q -> Prop.

Lemma meets_ret {A} (a : A) (post : A -> Prop) :
  post a -> meets U (mret a) post.
Proof. intros Ha w _. split; [apply advances_refl|exact Ha]. Qed.

Lemma meets_bind {A B} (c : M A) (k : A -> M B) (P : A -> Prop) (R : B -> Prop) :
  meets U c P -> (forall a, P a -> meets U (k a) R) -> meets U (c ≫= k) R.
Proof.
  intros Hc Hk w Hw. destruct (Hc w Hw) as [Hadv Hpost].
  unfold mbind, M_bind. destruct (c w) as [[a|e|] w']; cbn [fst snd] in *.
  - assert (Hw' : Forall U (random w')).
    { eapply Forall_suffix_of; [exact Hw|apply Hadv]. }
    destruct (Hk a Hpost w' Hw') as [Hadv' Hpost'].
    split; [eapply advances_trans; eassumption|exact Hpost'].
  - split; assumption.
  - split; assumption.
Qed.

Lemma meets_Math_random : meets U Math_random U.
Proof.
  intros w Hw. unfold Math_random.
  destruct w as [[|r rs] ts tm co]; cbn in *.
  - split; [apply advances_refl|exact I].
  - apply Forall_cons in Hw as [Hr _].
    split; [|exact Hr]. repeat split; cbn; try reflexivity.
    apply suffix_cons_r. reflexivity.
Qed.

Lemma meets_Date_now : meets U Date_now (fun _ => True).
Proof.
  intros w _. unfold Date_now. destruct w as [rs [|t ts] tm co]; cbn.
  - split; [apply advances_refl|exact I].
  - split; [|exact I]. repeat split; cbn; try reflexivity.
    apply suffix_cons_r. reflexivity.
Qed.

Lemma redraw_contract (originIndex : Z) (rs : list Q) :
  Forall U rs ->
  forall destIndex,
    drawn U destIndex ->
    snd (redraw_while_equal originIndex destIndex rs) `suffix_of` rs /\
    match fst (redraw_while_equal originIndex destIndex rs) with
    | Returned d => drawn U d /\ d <> originIndex
    | Thrown _ => False
    | Starved => True
    end.
Proof.
  induction 1 as [|r rs Hr _ IH]; intros destIndex Hdest; cbn [redraw_while_equal];
    destruct (Z.eqb_spec destIndex originIndex) as [->|Hne]; cbn [fst snd];
    try (split; [reflexivity|auto]).
  destruct (IH (floor_times r cities_length)) as [Hsuffix Hpost].
  { exists r. auto. }
  split; [apply suffix_cons_r, Hsuffix|exact Hpost].
Qed.

Lemma meets_pick_destination (originIndex destIndex : Z) :
  drawn U destIndex ->
  meets U (pick_destination originIndex destIndex)
    (fun d => drawn U d /\ d <> originIndex).
Proof.
  intros Hdest w Hw. unfold pick_destination.
  destruct (redraw_contract originIndex (random w) Hw destIndex Hdest)
    as [Hsuffix Hpost].
  destruct (redraw_while_equal originIndex destIndex (random w)) as [o rs].
  cbn [fst snd] in *. split; [|destruct o; [exact Hpost|contradiction|exact I]].
  repeat split; cbn; try reflexivity. exact Hsuffix.
Qed.

Lemma at_index_cities_None (i : Z) :
  at_index cities i = None -> ~ (0 <= i < cities_length).
Proof.
  unfold at_index. intros H [Hlo Hhi].
  destruct (Z.ltb_spec i 0); [lia|].
  apply lookup_ge_None in H. change (length cities) with 10%nat in H.
  change cities_length with 10 in Hhi. lia.
Qed.

Lemma meets_deref_city (i : Z) :
  drawn U i ->
  meets U (deref (at_index cities i)) (fun city => at_index cities i = Some city).
Proof.
  intros (r & Hr & ->) w _.
  destruct (at_index cities (floor_times r cities_length)) as [city|] eqn:E; cbn.
  - split; [apply advances_refl|reflexivity].
  - split; [apply advances_refl|]. split; [reflexivity|].
    exists r. split; [exact Hr|]. apply at_index_cities_None, E.
Qed.

Section Locale.

Variable toLocaleString : Z -> string.
Variable toLocaleDateString : Z -> string.

Lemma meets_transit_loop (remaining : nat) :
  forall (i now : Z) (events : list TrackingEvent),
    meets U (transit_loop toLocaleString remaining i now events)
      (fun events' => exists transit, events' = transit ++ events).
Proof.
  induction remaining as [|remaining IH]; intros i now events; cbn [transit_loop].
  - apply meets_ret. exists []. reflexivity.
  - unfold getRandomCity.
    eapply meets_bind.
    { eapply meets_bind; [apply meets_Math_random|].
      intros r Hr. apply meets_ret with
        (post := fun oc => exists j, drawn U j /\ oc = at_index cities j).
      exists (floor_times r cities_length). split; [exists r; auto|reflexivity]. }
    intros oc (j & Hj & ->).
    eapply meets_bind; [apply meets_deref_city, Hj|].
    intros city _ w Hw. destruct (IH (i + 1) now
      ({| status := "In Transit"; location := place city;
          timestamp := toLocaleString (now - hours (24 - i * 8));
          description := Some "Shipment in transit to destination" |} :: events) w Hw)
      as [Hadv Hpost].
    split; [exact Hadv|].
    destruct (fst (transit_loop _ _ _ _ _ w)); try exact Hpost.
    destruct Hpost as [transit ->]. eexists (transit ++ [_]).
    rewrite <- app_assoc. reflexivity.
Qed.

(** What the generator guarantees of a record it returns. *)
Lemma meets_generateRandomTrackingInfo (awbNumber : string) :
  meets U (generateRandomTrackingInfo toLocaleString toLocaleDateString awbNumber)
    (fun info =>
       Tracking.awbNumber info = awbNumber /\
       origin info <> destination info /\
       ends_shipped_at_origin info).
Proof.
  unfold generateRandomTrackingInfo.
  eapply meets_bind; [apply meets_Math_random|]. intros r0 Hr0. cbv zeta.
  eapply meets_bind; [apply meets_Math_random|]. intros r Hr.
  eapply meets_bind.
  { apply meets_pick_destination. exists r. auto. }
  intros d [Hd Hne].
  eapply meets_bind; [apply meets_Date_now|]. intros now _.
  eapply meets_bind.
  { apply meets_deref_city. exists r0. auto. }
  intros o Ho.
  eapply meets_bind; [apply meets_Math_random|]. intros rt _.
  eapply meets_bind; [apply meets_transit_loop|]. intros events [transit ->].
  eapply meets_bind; [apply meets_deref_city, Hd|]. intros dst Hdst.
  apply meets_ret. cbn. split; [reflexivity|]. split.
  - intros Heq. apply Hne.
    unfold at_index in Ho, Hdst.
    destruct (Z.ltb_spec (floor_times r0 cities_length) 0); [discriminate|].
    destruct (Z.ltb_spec d 0); [discriminate|].
    pose proof (place_index_inj _ _ _ _ Hdst Ho (eq_sym Heq)). lia.
  - eexists. cbn [events]. rewrite last_snoc. repeat split.
Qed.

End Locale.

End Contract.

Section Locale.

Variable toLocaleString : Z -> string.
Variable toLocaleDateString : Z -> string.

(** For a well-formed identifier with no canned record, the call is the
    generator run after the wait, with what it throws logged and thrown
    again. *)
Lemma fetchTrackingInfo_unknown (dummy : gmap string TrackingInfo)
    (awbNumber : string) (w : World) :
  awb_pattern_test awbNumber = true ->
  dummy !! awbNumber = None ->
  fetchTrackingInfo toLocaleString toLocaleDateString dummy awbNumber w
  = match generateRandomTrackingInfo toLocaleString toLocaleDateString awbNumber
            (after_wait w) with
    | (Thrown e, w') => (Thrown e, logged e w')
    | r => r
    end.
Proof.
  intros Htest Hlookup. unfold fetchTrackingInfo, try_catch.
  erewrite (bind_Returned (sleep 1000)) by reflexivity.
  rewrite Htest, (awb_pattern_test_nonempty _ Htest), Hlookup.
  cbn [orb negb]. unfold after_wait.
  destruct (generateRandomTrackingInfo _ _ _ _) as [[info|e|] w']; reflexivity.
Qed.

(** Extra X14. Whatever the identifier and the table, a call waits
    exactly once, for one second; it takes readings of the random source
    and of the clock only in order, leaving a tail of each; and it prints
    to the console exactly when it throws: one entry, carrying the error
    thrown. *)
Theorem fetchTrackingInfo_effects (dummy : gmap string TrackingInfo)
    (awbNumber : string) (w : World) :
  let r := fetchTrackingInfo toLocaleString toLocaleDateString dummy awbNumber w in
  timers (snd r) = timers w ++ [1000] /\
  random (snd r) `suffix_of` random w /\
  clock (snd r) `suffix_of` clock w /\
  console (snd r)
  = console w ++ match fst r with
                 | Thrown e => [("Error fetching tracking info:", e)]
                 | _ => []
                 end.
Proof.
  cbv zeta. destruct (awb_pattern_test awbNumber) eqn:Htest.
  - destruct (dummy !! awbNumber) as [info|] eqn:Hlookup.
    + rewrite (fetchTrackingInfo_canned _ _ _ _ info w Htest Hlookup).
      cbn. rewrite app_nil_r. repeat split; reflexivity.
    + rewrite fetchTrackingInfo_unknown by assumption.
      destruct (meets_generateRandomTrackingInfo (fun _ => True)
                  toLocaleString toLocaleDateString awbNumber (after_wait w))
        as [(Ht & Hc & Hr & Hk) _].
      { apply Forall_forall. auto. }
      destruct (generateRandomTrackingInfo _ _ _ _) as [[info|e|] w'];
        cbn [fst snd] in *; cbn in Ht, Hc, Hr, Hk |- *;
        rewrite ?app_nil_r; repeat split; congruence || assumption.
  - rewrite fetchTrackingInfo_invalid by exact Htest.
    cbn. repeat split; reflexivity.
Qed.


(** Extra X16. A call throws the invalid-number error exactly when the
    identifier is not a string of ten characters, each one of the digits
    [0] to [9]: whatever the table, the random source and the clock. *)
Theorem invalid_awb_thrown_iff_not_ten_digits (dummy : gmap string TrackingInfo)
    (awbNumber : string) (w : World) :
  fst (fetchTrackingInfo toLocaleString toLocaleDateString dummy awbNumber w)
    = Thrown (Error "Invalid AWB number. Please provide a 10-digit AWB number.")
  <->
  ~ (String.length awbNumber = 10%nat /\
     Forall (fun c => is_digit c = true) (String.list_ascii_of_string awbNumber)).
Proof.
  rewrite <- awb_pattern_test_true.
  destruct (awb_pattern_test awbNumber) eqn:Htest.
  - split; [|intros H; contradiction H; reflexivity].
    intros Hthrown. exfalso.
    destruct (dummy !! awbNumber) as [info|] eqn:Hlookup.
    + rewrite (fetchTrackingInfo_canned _ _ _ _ info w Htest Hlookup) in Hthrown.
      discriminate Hthrown.
    + rewrite fetchTrackingInfo_unknown in Hthrown by assumption.
      destruct (meets_generateRandomTrackingInfo (fun _ => True)
                  toLocaleString toLocaleDateString awbNumber (after_wait w))
        as [_ Hpost].
      { apply Forall_forall. auto. }
      destruct (generateRandomTrackingInfo _ _ _ _) as [[info|e'|] w'];
        cbn [fst] in *; try discriminate Hthrown.
      destruct Hpost as [-> _]. discriminate Hthrown.
  - rewrite fetchTrackingInfo_invalid by exact Htest.
    split; [discriminate|reflexivity].
Qed.

(** Extra X17. Every record a call returns, canned or generated, carries
    the identifier that was asked for, names an origin and a destination
    that differ, and ends its events with a ["Shipped"] event located at
    its origin. *)
Theorem returned_record_invariants (w_load w_loaded : World)
    (dummy : gmap string TrackingInfo) (awbNumber : string) (w : World)
    (info : TrackingInfo) :
  dummyTrackingData toLocaleString toLocaleDateString w_load = (Returned dummy, w_loaded) ->
  fst (fetchTrackingInfo toLocaleString toLocaleDateString dummy awbNumber w)
    = Returned info ->
  Tracking.awbNumber info = awbNumber /\
  origin info <> destination info /\
  ends_shipped_at_origin info.
Proof.
  intros Hload Hrun. destruct (awb_pattern_test awbNumber) eqn:Htest.
  2:{ rewrite fetchTrackingInfo_invalid in Hrun by exact Htest. discriminate Hrun. }
  destruct (dummy !! awbNumber) as [canned|] eqn:Hlookup.
  - rewrite (fetchTrackingInfo_canned _ _ _ _ canned w Htest Hlookup) in Hrun.
    injection Hrun as ->.
    destruct (dummyTrackingData_contents _ _ _ _ _ Hload)
      as (? & ? & ? & ? & ? & ? & ? & ? & ? & ? & ? & ? & ? & ? & _ & _
          & H1 & H2 & H3 & Hother).
    destruct (decide (awbNumber = "1234567890")) as [->|N1];
      [rewrite H1 in Hlookup; injection Hlookup as <-;
       split; [reflexivity|]; split; [discriminate|];
       eexists; repeat split|].
    destruct (decide (awbNumber = "9876543210")) as [->|N2];
      [rewrite H2 in Hlookup; injection Hlookup as <-;
       split; [reflexivity|]; split; [discriminate|];
       eexists; repeat split|].
    destruct (decide (awbNumber = "5678901234")) as [->|N3];
      [rewrite H3 in Hlookup; injection Hlookup as <-;
       split; [reflexivity|]; split; [discriminate|];
       eexists; repeat split|].
    rewrite Hother in Hlookup by assumption. discriminate Hlookup.
  - rewrite fetchTrackingInfo_unknown in Hrun by assumption.
    destruct (meets_generateRandomTrackingInfo (fun _ => True)
                toLocaleString toLocaleDateString awbNumber (after_wait w))
      as [_ Hpost].
    { apply Forall_forall. auto. }
    destruct (generateRandomTrackingInfo _ _ _ _) as [[info'|e'|] w'];
      cbn [fst] in *; try discriminate Hrun.
    injection Hrun as <-. exact Hpost.
Qed.

End Locale.

Lemma bind_Starved {A B} (c : M A) (k : A -> M B) (w w' : World) :
  c w = (Starved, w') -> (c ≫= k) w = (Starved, w').
Proof. intros H. unfold mbind, M_bind. rewrite H. reflexivity. Qed.

Lemma transit_events_in_draw_order (toLocaleString : Z -> string)
    (now : Z) (visited : list City) :
  forall i,
    transit_events toLocaleString now i visited
    = reverse (imap (fun k city => transit_event toLocaleString now (i + Z.of_nat k) city)
                 visited).
Proof.
  induction visited as [|city visited IH]; intros i; [reflexivity|].
  cbn [transit_events imap]. rewrite reverse_cons, IH, Z.add_0_r.
  f_equal. f_equal. apply imap_ext. intros k c _. cbn. f_equal. lia.
Qed.

Section Locale.

Variable toLocaleString : Z -> string.
Variable toLocaleDateString : Z -> string.



(** Extra X20. If the readings of the clock taken while the module is
    loaded lie less than six hours apart, each canned record lists its
    events most recent first: its timestamps render instants in strictly
    descending order. *)
Theorem canned_events_descend_when_load_is_short (w_load w_loaded : World)
    (dummy : gmap string TrackingInfo) (awbNumber : string) (info : TrackingInfo) :
  dummyTrackingData toLocaleString toLocaleDateString w_load = (Returned dummy, w_loaded) ->
  (forall s t, s ∈ take 13 (clock w_load) -> t ∈ take 13 (clock w_load) ->
               t - s < hours 6) ->
  dummy !! awbNumber = Some info ->
  exists instants : list Z,
    timestamp <$> events info = toLocaleString <$> instants /\
    StronglySorted Z.gt instants.
Proof.
  intros Hload Hshort Hlookup.
  destruct (dummyTrackingData_contents _ _ _ _ _ Hload)
    as (d1 & a1 & b1 & c1 & d2 & a2 & b2 & c2 & e2 & d3 & a3 & b3 & c3 & later
        & Hclock & _ & H1 & H2 & H3 & Hother).
  rewrite Hclock in Hshort. cbn [take app] in Hshort.
  assert (Hnear : forall s t,
            s ∈ [d1; a1; b1; c1; d2; a2; b2; c2; e2; d3; a3; b3; c3] ->
            t ∈ [d1; a1; b1; c1; d2; a2; b2; c2; e2; d3; a3; b3; c3] ->
            t - s < 21600000) by exact Hshort.
  assert (Hpair : forall s t,
            s ∈ [d1; a1; b1; c1; d2; a2; b2; c2; e2; d3; a3; b3; c3] ->
            t ∈ [d1; a1; b1; c1; d2; a2; b2; c2; e2; d3; a3; b3; c3] ->
            t - s < 21600000 /\ s - t < 21600000)
    by (intros s t Hs Ht; split; apply Hnear; assumption).
  assert (Ha1b1 : b1 - a1 < 21600000 /\ a1 - b1 < 21600000)
    by (apply Hpair; repeat constructor).
  assert (Hb1c1 : c1 - b1 < 21600000 /\ b1 - c1 < 21600000)
    by (apply Hpair; repeat constructor).
  assert (Ha2b2 : b2 - a2 < 21600000 /\ a2 - b2 < 21600000)
    by (apply Hpair; repeat constructor).
  assert (Hb2c2 : c2 - b2 < 21600000 /\ b2 - c2 < 21600000)
    by (apply Hpair; repeat constructor).
  assert (Hc2e2 : e2 - c2 < 21600000 /\ c2 - e2 < 21600000)
    by (apply Hpair; repeat constructor).
  assert (Ha3b3 : b3 - a3 < 21600000 /\ a3 - b3 < 21600000)
    by (apply Hpair; repeat constructor).
  assert (Hb3c3 : c3 - b3 < 21600000 /\ b3 - c3 < 21600000)
    by (apply Hpair; repeat constructor).
  clear Hnear Hshort Hpair.
  destruct (decide (awbNumber = "1234567890")) as [->|N1].
  { rewrite H1 in Hlookup; injection Hlookup as <-.
    exists [a1 + - hours 12; b1 + - hours 24; c1 + - hours 48].
    split; [reflexivity|]. unfold hours. repeat constructor; lia. }
  destruct (decide (awbNumber = "9876543210")) as [->|N2].
  { rewrite H2 in Hlookup; injection Hlookup as <-.
    exists [a2 + - hours 6; b2 + - hours 12; c2 + - hours 24; e2 + - hours 48].
    split; [reflexivity|]. unfold hours. repeat constructor; lia. }
  destruct (decide (awbNumber = "5678901234")) as [->|N3].
  { rewrite H3 in Hlookup; injection Hlookup as <-.
    exists [a3 + - hours 4; b3 + - hours 18; c3 + - hours 36].
    split; [reflexivity|]. unfold hours. repeat constructor; lia. }
  rewrite Hother in Hlookup by assumption. discriminate Hlookup.
Qed.

End Locale.

(** *** Runs on sample inputs *)

Lemma call_world_unit (now : Z) : Forall unit_draw (random (call_world now)).
Proof.
  assert (Hunit : forall a b : positive, (a < b)%positive -> unit_draw (Z.pos a # b)).
  { intros a b Hab. split; unfold Qle, Qlt; cbn; lia. }
  repeat constructor; try (apply Hunit; lia); unfold Qle, Qlt; cbn; lia.
Qed.

(** A reading outside the unit interval, which [Math.random()] never
    gives, would make the generator fail on the missing city. *)
Lemma reading_outside_unit_interval_throws :
  fst (fetchTrackingInfo plain plain loaded_table "1111111111" broken_random_world)
  = Thrown TypeError.
Proof. vm_compute. reflexivity. Qed.


Lemma returned_record_invariants_runs :
  (exists info,
     fst (fetchTrackingInfo plain plain loaded_table "5678901234"
            (call_world 1700000100000)) = Returned info /\
     awbNumber info = "5678901234" /\ origin info <> destination info) /\
  (exists info,
     fst (fetchTrackingInfo plain plain loaded_table "1111111111"
            (call_world 1700000100000)) = Returned info /\
     awbNumber info = "1111111111" /\ ends_shipped_at_origin info).
Proof.
  split.
  - destruct (fst (fetchTrackingInfo plain plain loaded_table "5678901234"
                     (call_world 1700000100000))) as [info|e|] eqn:E;
      try (vm_compute in E; discriminate E).
    exists info. split; [reflexivity|].
    destruct (returned_record_invariants plain plain load_world _ loaded_table
                "5678901234" (call_world 1700000100000) info load_world_loads E)
      as (Hawb & Hod & _).
    split; assumption.
  - destruct (fst (fetchTrackingInfo plain plain loaded_table "1111111111"
                     (call_world 1700000100000))) as [info|e|] eqn:E;
      try (vm_compute in E; discriminate E).
    exists info. split; [reflexivity|].
    destruct (returned_record_invariants plain plain load_world _ loaded_table
                "1111111111" (call_world 1700000100000) info load_world_loads E)
      as (Hawb & _ & Hlast).
    split; assumption.
Defined.

Lemma unknown_awb_not_in_table : loaded_table !! "1111111111" = None.
Proof. vm_compute. reflexivity. Qed.



Lemma canned_events_descend_runs :
  exists info instants,
    loaded_table !! "9876543210" = Some info /\
    timestamp <$> events info = plain <$> instants /\
    StronglySorted Z.gt instants.
Proof.
  destruct (loaded_table !! "9876543210") as [info|] eqn:E;
    [|vm_compute in E; discriminate E].
  destruct (canned_events_descend_when_load_is_short plain plain load_world _
              loaded_table "9876543210" info load_world_loads)
    as (instants & Hstamps & Hsorted).
  - intros s t Hs Ht. cbn in Hs, Ht. rewrite !elem_of_cons, elem_of_nil in Hs, Ht.
    unfold hours. lia.
  - exact E.
  - exists info, instants. auto.
Defined.

End TrackingContractsSpec.
